(** * TinyAI model conversion: weight quantization and binary serialization

    A shallow embedding of the weight pipeline of
    [tools/conversion/{pytorch,tensorflow,onnx}/*_converter.py]:
    pruning, weight clustering, quantization with 4-bit packing, the
    per-parameter processing loop of the PyTorch converter, and the
    serializer that writes the metadata document and the weight blob.

    Conventions of the model.
    - A NumPy array is its dtype, its shape and its buffer of items in
      C order.  Every item is the raw bit pattern of the element (a
      32-bit word for float32, a 16-bit word for float16, a byte for
      uint8); arithmetic decodes the IEEE-754 value, computes with the
      parametric operations of [SpecFloat] and encodes the result.
    - Weight tensors are float32 arrays, the default parameter dtype.
    - NumPy is NumPy 2 (2.4).  Scalar promotion follows NEP 50: a
      Python float or int meeting a float32 array or a float32 scalar
      is computed in single precision; two Python floats are computed
      in double precision.  Only a 0-dimensional array converts with
      [int]; [np.count_nonzero] returns a NumPy integer, whose division
      by zero gives a NaN with a warning instead of raising.
    - Python exceptions are values of [exn]; code that may raise lives
      in the [result] monad.
    - The blob uses the byte order of the machine ([struct] native mode
      and [ndarray.tobytes]); the model fixes little endian. *)

From Stdlib Require Import String Ascii ZArith List Bool Lia.
From Stdlib Require Import Floats.SpecFloat.
Import ListNotations.
Open Scope Z_scope.

(* ================================================================== *)
(** ** Python: exceptions, the error monad, insertion-ordered dicts    *)
(* ================================================================== *)

Inductive exn : Type :=
| ValueError | TypeError | IndexError | KeyError
| ZeroDivisionError | OverflowError | StructError | OSError.

Inductive result (A : Type) : Type :=
| Ok (a : A)
| Raise (e : exn).
Arguments Ok {A} a.
Arguments Raise {A} e.

Definition bind {A B} (c : result A) (k : A -> result B) : result B :=
  match c with
  | Ok a => k a
  | Raise e => Raise e
  end.

Declare Scope py_scope.
Delimit Scope py_scope with py.
Notation "x <- c ;; k" := (bind c (fun x => k))
  (at level 61, c at next level, right associativity) : py_scope.
Notation "' pat <- c ;; k" := (bind c (fun x => match x with pat => k end))
  (at level 61, pat pattern, c at next level, right associativity) : py_scope.
Open Scope py_scope.

Fixpoint mapM {A B} (f : A -> result B) (l : list A) : result (list B) :=
  match l with
  | [] => Ok []
  | a :: l' => b <- f a ;; bs <- mapM f l' ;; Ok (b :: bs)
  end.


(** A Python [dict] with string keys: an association list in insertion
    order, at most one binding per key.  [dict_set] is [d[k] = v]: an
    existing key keeps its position. *)
Definition dict (V : Type) : Type := list (string * V).

Fixpoint dict_get {V} (d : dict V) (k : string) : option V :=
  match d with
  | [] => None
  | (k', v) :: d' => if String.eqb k' k then Some v else dict_get d' k
  end.

Fixpoint dict_set {V} (d : dict V) (k : string) (v : V) : dict V :=
  match d with
  | [] => [(k, v)]
  | (k', v') :: d' =>
      if String.eqb k' k then (k', v) :: d' else (k', v') :: dict_set d' k v
  end.

Definition dict_mem {V} (d : dict V) (k : string) : bool :=
  match dict_get d k with Some _ => true | None => false end.

Definition keys {V} (d : dict V) : list string := map fst d.

(** [needle in s] on strings. *)
Fixpoint str_in (needle s : string) : bool :=
  if String.prefix needle s then true
  else match s with
       | EmptyString => false
       | String _ s' => str_in needle s'
       end.

(** [s.rsplit(sep, 1)]: split at the last separator, if any. *)
Fixpoint rsplit1 (sep : ascii) (s : string) : option (string * string) :=
  match s with
  | EmptyString => None
  | String c s' =>
      match rsplit1 sep s' with
      | Some (a, b) => Some (String c a, b)
      | None => if Ascii.eqb c sep then Some (EmptyString, s') else None
      end
  end.

(* ================================================================== *)
(** ** IEEE-754 binary formats                                         *)
(* ================================================================== *)

Module IEEE.

(** A format is the width [mw] of its fraction field and the width
    [ew] of its exponent field. *)
Record format : Type := mk_format { mw : Z ; ew : Z }.

Definition binary16 : format := mk_format 10 5.
Definition binary32 : format := mk_format 23 8.
Definition binary64 : format := mk_format 52 11.

Definition prec (f : format) : Z := mw f + 1.
Definition emax (f : format) : Z := 2 ^ (ew f - 1).
Definition bias (f : format) : Z := emax f - 1.
Definition width (f : format) : Z := 1 + ew f + mw f.

(** The value held by a bit pattern. *)
Definition decode (f : format) (w : Z) : spec_float :=
  let frac := w mod 2 ^ mw f in
  let ex := (w / 2 ^ mw f) mod 2 ^ ew f in
  let s := Z.odd (w / 2 ^ (mw f + ew f)) in
  if ex =? 0 then
    match frac with
    | Zpos m => S754_finite s m (emin (prec f) (emax f))
    | _ => S754_zero s
    end
  else if ex =? 2 ^ ew f - 1 then
    if frac =? 0 then S754_infinity s else S754_nan
  else
    match frac + 2 ^ mw f with
    | Zpos m => S754_finite s m (ex - bias f - mw f)
    | _ => S754_nan
    end.

Definition sign_bit (f : format) (s : bool) : Z :=
  if s then 2 ^ (mw f + ew f) else 0.

(** The bit pattern of a value of the format; NaN is the quiet NaN. *)
Definition encode (f : format) (x : spec_float) : Z :=
  match x with
  | S754_zero s => sign_bit f s
  | S754_infinity s => sign_bit f s + (2 ^ ew f - 1) * 2 ^ mw f
  | S754_nan => (2 ^ ew f - 1) * 2 ^ mw f + 2 ^ (mw f - 1)
  | S754_finite s m e =>
      if Zpos m <? 2 ^ mw f then sign_bit f s + Zpos m
      else sign_bit f s + (e + bias f + mw f) * 2 ^ mw f + (Zpos m - 2 ^ mw f)
  end.

(** Rounding a value (of any format) to format [f], to nearest even. *)
Definition cast (f : format) (x : spec_float) : spec_float :=
  match x with
  | S754_finite s m e => binary_round (prec f) (emax f) s m e
  | _ => x
  end.

Definition add f := SFadd (prec f) (emax f).
Definition sub f := SFsub (prec f) (emax f).
Definition mul f := SFmul (prec f) (emax f).
Definition div f := SFdiv (prec f) (emax f).

Definition is_nan (x : spec_float) : bool :=
  match x with S754_nan => true | _ => false end.

(** A small integer as a value of format [f]. *)
Definition of_Z (f : format) (n : Z) : spec_float :=
  binary_normalize (prec f) (emax f) n 0 false.

(** [rint]: the nearest integer, halves to the even one, as a float. *)
Definition rint (f : format) (x : spec_float) : spec_float :=
  match x with
  | S754_finite s m e =>
      if 0 <=? e then x
      else
        let '(mrs, _) := shr (Build_shr_record (Zpos m) false false) e (- e) in
        match round_nearest_even (shr_m mrs) (loc_of_shr_record mrs) with
        | Zpos n => binary_round (prec f) (emax f) s n 0
        | _ => S754_zero s
        end
  | _ => x
  end.

(** Python's [int(x)] on a float: truncation toward zero. *)
Definition trunc (x : spec_float) : result Z :=
  match x with
  | S754_zero _ => Ok 0
  | S754_nan => Raise ValueError
  | S754_infinity _ => Raise OverflowError
  | S754_finite s m e =>
      let n := if 0 <=? e then Zpos m * 2 ^ e else Zpos m / 2 ^ (- e) in
      Ok (if s then - n else n)
  end.

End IEEE.

(* ================================================================== *)
(** ** NumPy arrays                                                    *)
(* ================================================================== *)

Module Np.
Import IEEE.

Inductive dtype : Type := float16 | float32 | uint8 | bool_.

Definition itemsize (d : dtype) : Z :=
  match d with
  | float16 => 2
  | float32 => 4
  | uint8 => 1
  | bool_ => 1
  end.

Record ndarray : Type := mk_ndarray {
  dtype_of : dtype ;
  shape : list Z ;
  buffer : list Z
}.

Definition prod (dims : list Z) : Z := fold_right Z.mul 1 dims.

(** [a.size] *)
Definition size (a : ndarray) : Z := prod (shape a).

Definition len {A} (l : list A) : Z := Z.of_nat (length l).

(** The arrays NumPy can build: as many items as the shape says, each
    one fitting its item size. *)
Definition wf (a : ndarray) : Prop :=
  Forall (fun d => 0 <= d) (shape a) /\
  len (buffer a) = size a /\
  Forall (fun w => 0 <= w < 2 ^ (8 * itemsize (dtype_of a))) (buffer a).

(** A 32-bit scalar seen by Python: a Python float (a double) or a
    NumPy float32 scalar. *)
Inductive scalar : Type :=
| PyFloat (x : spec_float)
| NpFloat32 (x : spec_float).

Definition f32 (w : Z) : spec_float := decode binary32 w.
Definition w32 (x : spec_float) : Z := encode binary32 x.

(** The float32 value a scalar takes next to a float32 array. *)
Definition as_float32 (s : scalar) : spec_float :=
  match s with
  | PyFloat x => cast binary32 x
  | NpFloat32 x => x
  end.

(** [s / c] for a Python float constant [c]. *)
Definition scalar_div (s : scalar) (c : spec_float) : scalar :=
  match s with
  | PyFloat x => PyFloat (div binary64 x c)
  | NpFloat32 x => NpFloat32 (div binary32 x (cast binary32 c))
  end.

(** [s == 0] *)
Definition scalar_eq0 (s : scalar) : bool :=
  match s with
  | PyFloat x | NpFloat32 x => SFeqb x (S754_zero false)
  end.

(** Elementwise float32 operation. *)
Definition map32 (op : spec_float -> spec_float) (a : ndarray) : ndarray :=
  mk_ndarray float32 (shape a) (map (fun w => w32 (op (f32 w))) (buffer a)).

(** [np.maximum] and [np.minimum] on two float32 values: a NaN wins. *)
Definition maximum (a b : spec_float) : spec_float :=
  if is_nan a then a else if SFleb b a then a else b.
Definition minimum (a b : spec_float) : spec_float :=
  if is_nan a then a else if SFleb a b then a else b.

(** [np.max(a)], [np.min(a)]: a reduction over all items; it has no
    identity, so an empty array raises. *)
Definition reduce (op : spec_float -> spec_float -> spec_float)
           (a : ndarray) : result spec_float :=
  match buffer a with
  | [] => Raise ValueError
  | w :: ws => Ok (fold_left (fun acc w' => op acc (f32 w')) ws (f32 w))
  end.
Definition max (a : ndarray) : result spec_float := reduce maximum a.
Definition min (a : ndarray) : result spec_float := reduce minimum a.

(** [a / s], [a + n] (n a Python int), [np.round], [np.clip], [np.abs] *)
Definition div_scalar (a : ndarray) (s : scalar) : ndarray :=
  map32 (fun x => div binary32 x (as_float32 s)) a.
Definition add_int (a : ndarray) (n : Z) : ndarray :=
  map32 (fun x => add binary32 x (of_Z binary32 n)) a.
Definition round (a : ndarray) : ndarray := map32 (rint binary32) a.
Definition clip (a : ndarray) (lo hi : Z) : ndarray :=
  map32 (fun x => minimum (maximum x (of_Z binary32 lo)) (of_Z binary32 hi)) a.
Definition abs (a : ndarray) : ndarray := map32 SFabs a.

(** [a > t] for a Python float [t]: a bool array. *)
Definition greater (a : ndarray) (t : spec_float) : ndarray :=
  mk_ndarray bool_ (shape a)
    (map (fun w => if SFltb (cast binary32 t) (f32 w) then 1 else 0) (buffer a)).

(** [a * mask] for a bool array of the same shape. *)
Definition mul_mask (a mask : ndarray) : ndarray :=
  mk_ndarray float32 (shape a)
    (map (fun '(w, b) => w32 (mul binary32 (f32 w) (of_Z binary32 b)))
         (combine (buffer a) (buffer mask))).

Definition count_nonzero (a : ndarray) : Z :=
  len (filter (fun w => negb (w =? 0)) (buffer a)).

(** [a.astype(np.float16)]: each value rounded to half precision; a
    NaN keeps its sign and the high bits of its payload and is quiet. *)
Definition half_item (w : Z) : Z :=
  if is_nan (f32 w) then
    (w / 2 ^ 31) mod 2 * 2 ^ 15 + 0x7C00 + Z.lor (w mod 2 ^ 23 / 2 ^ 13) 0x200
  else encode binary16 (cast binary16 (f32 w)).
Definition astype_float16 (a : ndarray) : ndarray :=
  mk_ndarray float16 (shape a) (map half_item (buffer a)).

(** [a.astype(np.uint8)] on a float32 array is the C conversion,
    undefined out of range; this is what x86-64 does: convert to a
    32-bit integer (the "indefinite" value 0x80000000 when that
    fails) and keep the low byte. *)
Definition to_uint8 (x : spec_float) : Z :=
  match trunc x with
  | Ok n => if (- 2 ^ 31 <=? n) && (n <? 2 ^ 31) then n mod 256 else 0
  | Raise _ => 0
  end.
Definition astype_uint8 (a : ndarray) : ndarray :=
  mk_ndarray uint8 (shape a) (map (fun w => to_uint8 (f32 w)) (buffer a)).

(** [np.zeros(n, dtype=np.uint8)] *)
Definition zeros_uint8 (n : Z) : ndarray :=
  mk_ndarray uint8 [n] (repeat 0 (Z.to_nat n)).

(** [a[k]]: indexing along the first axis. *)
Definition getitem (a : ndarray) (k : Z) : result ndarray :=
  match shape a with
  | [] => Raise IndexError
  | d :: rest =>
      let k' := if k <? 0 then k + d else k in
      if (0 <=? k') && (k' <? d) then
        let stride := Z.to_nat (prod rest) in
        Ok (mk_ndarray (dtype_of a) rest
              (firstn stride (skipn (Z.to_nat k' * stride) (buffer a))))
      else Raise IndexError
  end.

(** [int(a)] on a float32 array or scalar: only a 0-dimensional one
    converts. *)
Definition int_ (a : ndarray) : result Z :=
  match shape a, buffer a with
  | [], [w] => trunc (f32 w)
  | _, _ => Raise TypeError
  end.

Fixpoint set_nth (l : list Z) (n : nat) (v : Z) : list Z :=
  match l, n with
  | [], _ => []
  | _ :: l', O => v :: l'
  | x :: l', S n' => x :: set_nth l' n' v
  end.

(** [a[k] = v] on a one-dimensional uint8 array, [v] a Python int. *)
Definition setitem (a : ndarray) (k : Z) (v : Z) : result ndarray :=
  match shape a with
  | [d] =>
      let k' := if k <? 0 then k + d else k in
      if (0 <=? k') && (k' <? d) then
        if (0 <=? v) && (v <? 256) then
          Ok (mk_ndarray (dtype_of a) (shape a) (set_nth (buffer a) (Z.to_nat k') v))
        else Raise OverflowError
      else Raise IndexError
  | _ => Raise IndexError
  end.

(** [range(n)] *)
Definition range (n : Z) : list Z := map Z.of_nat (seq 0 (Z.to_nat n)).

(** [for i in l: s = body(i, s)] *)
Fixpoint for_ {S} (l : list Z) (body : Z -> S -> result S) (s : S) : result S :=
  match l with
  | [] => Ok s
  | i :: l' => s' <- body i s ;; for_ l' body s'
  end.

(** Little-endian bytes of an item. *)
Fixpoint le_bytes (n : nat) (w : Z) : list Z :=
  match n with
  | O => []
  | S n' => w mod 256 :: le_bytes n' (w / 256)
  end.

Fixpoint le_word (bs : list Z) : Z :=
  match bs with
  | [] => 0
  | b :: bs' => b + 256 * le_word bs'
  end.

(** [a.tobytes()] *)
Definition tobytes (a : ndarray) : list Z :=
  flat_map (le_bytes (Z.to_nat (itemsize (dtype_of a)))) (buffer a).

(** [np.frombuffer(bs, dtype=d)]: the items of a byte string. *)
Fixpoint chunks (fuel n : nat) (bs : list Z) : list (list Z) :=
  match fuel, bs with
  | O, _ => []
  | _, [] => []
  | S fuel', _ => firstn n bs :: chunks fuel' n (skipn n bs)
  end.
Definition frombuffer (d : dtype) (bs : list Z) : list Z :=
  map le_word (chunks (length bs) (Z.to_nat (itemsize d)) bs).

(** [np.unique] on float32 items: sorted, equal values once (all NaNs
    count as one value, which sorts last). *)
Definition fle (a b : spec_float) : bool :=
  if is_nan b then true else if is_nan a then false else SFleb a b.
Definition same (a b : spec_float) : bool :=
  (is_nan a && is_nan b) || SFeqb a b.

Fixpoint insert_sorted (x : Z) (l : list Z) : list Z :=
  match l with
  | [] => [x]
  | y :: l' => if fle (f32 x) (f32 y) then x :: l else y :: insert_sorted x l'
  end.
Definition sort (l : list Z) : list Z := fold_right insert_sorted [] l.

Fixpoint dedup_from (prev : Z) (l : list Z) : list Z :=
  match l with
  | [] => []
  | y :: l' =>
      if same (f32 prev) (f32 y) then dedup_from y l' else y :: dedup_from y l'
  end.
Definition dedup (l : list Z) : list Z :=
  match l with
  | [] => []
  | x :: l' => x :: dedup_from x l'
  end.
Definition unique (a : ndarray) : list Z := dedup (sort (buffer a)).

(** [a.reshape(-1)] and [a.reshape(shp)] *)
Definition flatten (a : ndarray) : ndarray :=
  mk_ndarray (dtype_of a) [len (buffer a)] (buffer a).
Definition reshape (a : ndarray) (shp : list Z) : result ndarray :=
  if prod shp =? len (buffer a) then Ok (mk_ndarray (dtype_of a) shp (buffer a))
  else Raise ValueError.

End Np.

(* ================================================================== *)
(** ** scikit-learn's k-means, an external collaborator                *)
(* ================================================================== *)

Module Sklearn.

(** What a fitted [KMeans] exposes on one-feature data: a centroid
    per cluster (float32 items) and a label per sample. *)
Record fitted : Type := mk_fitted {
  cluster_centers_ : list Z ;
  labels_ : list Z
}.

(** Fitting with [random_state=0] is a function of the cluster count
    and the data; it raises on arguments it rejects. *)
Definition KMeans : Type := Z -> Np.ndarray -> result fitted.

(** [centers[l]] for one label; a negative label counts from the end. *)
Definition pick (centers : list Z) (l : Z) : result Z :=
  let k := Np.len centers in
  let l' := if l <? 0 then l + k else l in
  if (0 <=? l') && (l' <? k) then Ok (nth (Z.to_nat l') centers 0)
  else Raise IndexError.

(** [centers[labels].reshape(-1)]: indexing by an integer array. *)
Definition take (centers labels : list Z) : result Np.ndarray :=
  items <- mapM (pick centers) labels ;;
  Ok (Np.mk_ndarray Np.float32 [Np.len items] items).

End Sklearn.

(** A Python float holding an integer. *)
Definition py_float (n : Z) : spec_float := IEEE.of_Z IEEE.binary64 n.

(* ================================================================== *)
(** ** [struct.pack], paths and files                                  *)
(* ================================================================== *)

Module Struct.
Import IEEE Np.

(** [struct.pack("i", v)]: four bytes, two's complement. *)
Definition pack_i (v : Z) : result (list Z) :=
  if (- 2 ^ 31 <=? v) && (v <? 2 ^ 31) then Ok (le_bytes 4 (v mod 2 ^ 32))
  else Raise StructError.

(** [struct.pack(f"{n}i", *vs)] *)
Fixpoint pack_ints (vs : list Z) : result (list Z) :=
  match vs with
  | [] => Ok []
  | v :: vs' => b <- pack_i v ;; bs <- pack_ints vs' ;; Ok (b ++ bs)
  end.

(** [struct.pack("f", s)] in native mode: the scalar as a double,
    converted to single precision as C does, a value beyond the single
    range becoming an infinity. *)
Definition pack_f (s : scalar) : result (list Z) :=
  let x := match s with PyFloat x | NpFloat32 x => x end in
  Ok (le_bytes 4 (encode binary32 (cast binary32 x))).

End Struct.

Module Os.

(** [os.path.splitext(p)[0]]: the path without the extension of its
    last component; leading dots of the component are not an
    extension. *)
Fixpoint all_dots (s : string) : bool :=
  match s with
  | EmptyString => true
  | String c s' => Ascii.eqb c "."%char && all_dots s'
  end.

Definition basename (p : string) : string :=
  match rsplit1 "/"%char p with
  | Some (_, b) => b
  | None => p
  end.

Definition dirname (p : string) : string :=
  match rsplit1 "/"%char p with
  | Some (d, _) => d
  | None => EmptyString
  end.

Definition splitext_root (p : string) : string :=
  match rsplit1 "."%char p with
  | Some (root, ext) =>
      if str_in "/" ext then p
      else if all_dots (basename root) then p
      else root
  | None => p
  end.

End Os.

(* ================================================================== *)
(** ** The three converters                                            *)
(* ================================================================== *)

Module PyTorchConverter.
Import IEEE Np.

Section Methods.
(** [KMeans(n_clusters=k, random_state=0).fit(X)] *)
Variable KMeans_fit : Sklearn.KMeans.

(** [_prune_weights(self, weights, threshold)] *)
Definition _prune_weights (weights : ndarray) (threshold : spec_float)
  : result ndarray :=
  let mask := greater (abs weights) threshold in
  let pruned_weights := mul_mask weights mask in
  let sparsity := sub binary64 (py_float 1)
                      (div binary64 (py_float (count_nonzero mask))
                                    (py_float (size mask))) in
  Ok pruned_weights.

(** [_apply_weight_clustering(self, weights, num_clusters)] *)
Definition _apply_weight_clustering (weights : ndarray) (num_clusters : Z)
  : result ndarray :=
  let original_shape := shape weights in
  let flattened := flatten weights in
  if len (unique flattened) <=? num_clusters then Ok weights
  else
    kmeans <- KMeans_fit num_clusters flattened ;;
    clustered <- Sklearn.take (Sklearn.cluster_centers_ kmeans)
                              (Sklearn.labels_ kmeans) ;;
    reshape clustered original_shape.

(** One turn of the packing loop:
    [quantized[i] = (int(qf[i*2]) << 4) | int(qf[i*2+1])] *)
Definition pack_pair (quantized_float : ndarray) (i : Z) (quantized : ndarray)
  : result ndarray :=
  a <- getitem quantized_float (i * 2) ;;
  hi <- int_ a ;;
  b <- getitem quantized_float (i * 2 + 1) ;;
  lo <- int_ b ;;
  setitem quantized i (Z.lor (Z.shiftl hi 4) lo).

(** [_quantize_weights(self, weights, bits)]; [None] is what Python
    returns when the function body ends without a [return]. *)
Definition _quantize_weights (weights : ndarray) (bits : Z)
  : result (option (ndarray * scalar * Z)) :=
  if bits =? 32 then Ok (Some (weights, PyFloat (py_float 1), 0))
  else if bits =? 16 then
    Ok (Some (astype_float16 weights, PyFloat (py_float 1), 0))
  else
    hi <- max weights ;;
    lo <- min weights ;;
    let data_range := NpFloat32 (sub binary32 hi lo) in
    let data_range :=
      if scalar_eq0 data_range then PyFloat (py_float 1) else data_range in
    if bits =? 8 then
      let zero_point := 0 in
      let scale := scalar_div data_range (py_float 255) in
      let quantized :=
        astype_uint8 (round (add_int (div_scalar weights scale) zero_point)) in
      Ok (Some (quantized, scale, zero_point))
    else if bits =? 4 then
      let zero_point := 0 in
      let scale := scalar_div data_range (py_float 15) in
      let quantized_float :=
        clip (round (add_int (div_scalar weights scale) zero_point)) 0 15 in
      if size weights mod 2 =? 0 then
        quantized <- for_ (range (size weights / 2)) (pack_pair quantized_float)
                          (zeros_uint8 (size weights / 2)) ;;
        Ok (Some (quantized, scale, zero_point))
      else
        quantized <- for_ (range (size weights / 2)) (pack_pair quantized_float)
                          (zeros_uint8 (size weights / 2 + 1)) ;;
        quantized <- (if size weights >? 1 then
                        a <- getitem quantized_float (-1) ;;
                        v <- int_ a ;;
                        setitem quantized (-1) (Z.shiftl v 4)
                      else Ok quantized) ;;
        Ok (Some (quantized, scale, zero_point))
    else Ok None.

(** The converter object: the fields [__init__] stores. *)
Record converter : Type := mk_converter {
  quantize_bits : Z ;
  mixed_precision : bool ;
  prune_threshold : option spec_float ;
  weight_clustering : option Z ;
  optimize : bool ;
  verbose : bool
}.


(** An item of [model.named_parameters()]. *)
Record parameter : Type := mk_parameter {
  name : string ;
  requires_grad : bool ;
  data : ndarray
}.

(** A value of the weight store: the dict [_process_weights] builds
    for a parameter; [scale], [zero_point] and [bits] are present
    together or not at all. *)
Record weight_info : Type := mk_weight_info {
  wi_data : ndarray ;
  wi_quant : option (scalar * Z * Z) ;
  wi_shape : list Z
}.

Definition store : Type := dict (dict weight_info).

(** The body of the loop of [_process_weights] for a parameter that
    is not skipped. *)
Definition process_parameter (self : converter) (p : parameter)
           (processed_weights : store) : result store :=
  let weight_data := data p in
  let '(module_name, param_type) :=
    match rsplit1 "."%char (name p) with
    | Some (m, t) => (m, t)
    | None => ("model"%string, name p)
    end in
  weight_data <- match prune_threshold self with
                 | Some t => _prune_weights weight_data t
                 | None => Ok weight_data
                 end ;;
  weight_data <- match weight_clustering self with
                 | Some k => _apply_weight_clustering weight_data k
                 | None => Ok weight_data
                 end ;;
  weight_info <-
    (if str_in "weight" param_type || str_in "bias" param_type then
       let bits :=
         if mixed_precision self then
           if str_in "weight" param_type then quantize_bits self else 8
         else quantize_bits self in
       q <- _quantize_weights weight_data bits ;;
       match q with
       | Some (quantized_data, scale, zero_point) =>
           Ok (mk_weight_info quantized_data (Some (scale, zero_point, bits))
                              (shape weight_data))
       | None => Raise TypeError
       end
     else Ok (mk_weight_info weight_data None (shape weight_data))) ;;
  let processed_weights :=
    if dict_mem processed_weights module_name then processed_weights
    else dict_set processed_weights module_name [] in
  let layer := match dict_get processed_weights module_name with
               | Some l => l
               | None => []
               end in
  Ok (dict_set processed_weights module_name
               (dict_set layer param_type weight_info)).

(** [_process_weights(self, model)] on the model's named parameters. *)
Fixpoint process_loop (self : converter) (params : list parameter)
         (processed_weights : store) : result store :=
  match params with
  | [] => Ok processed_weights
  | p :: params' =>
      if negb (requires_grad p) && negb (verbose self) then
        process_loop self params' processed_weights
      else
        processed_weights <- process_parameter self p processed_weights ;;
        process_loop self params' processed_weights
  end.

Definition _process_weights (self : converter) (params : list parameter)
  : result store :=
  process_loop self params [].

(** *** Serialization *)

(** The values of the model dict: JSON-ready descriptions (opaque
    here), the weight store, and the offset index. *)
Inductive value : Type :=
| Json (text : string)
| Weights (w : store)
| Offsets (o : dict (dict Z)).

(** What a file holds: a dumped JSON document, bytes, or the empty or
    partial content of a file that was opened for writing and whose
    write did not finish. *)
Inductive content : Type :=
| Text (document : dict value)
| Binary (bytes : list Z)
| Incomplete.

(** The world [_save_model] acts on: the files, the paths that
    cannot be created or opened for writing, the paths that open but
    on which a write fails (a full disk, say), and the log. *)
Record world : Type := mk_world {
  files : dict content ;
  denied : list string ;
  failing : list string ;
  log : list exn
}.

(** Code with effects on the world that may raise. *)
Definition io (A : Type) : Type := world -> world * result A.

Definition io_ret {A} (a : A) : io A := fun w => (w, Ok a).
Definition io_bind {A B} (c : io A) (k : A -> io B) : io B :=
  fun w => match c w with
           | (w', Ok a) => k a w'
           | (w', Raise e) => (w', Raise e)
           end.
Definition lift {A} (c : result A) : io A := fun w => (w, c).

(** [try: body except Exception as e: handler(e)] *)
Definition try_except {A} (body : io A) (handler : exn -> io A) : io A :=
  fun w => match body w with
           | (w', Ok a) => (w', Ok a)
           | (w', Raise e) => handler e w'
           end.

Definition path_denied (w : world) (p : string) : bool :=
  existsb (String.eqb p) (denied w).
Definition path_failing (w : world) (p : string) : bool :=
  existsb (String.eqb p) (failing w).

(** The world with one file replaced, and with one more log entry. *)
Definition put (p : string) (c : content) (w : world) : world :=
  mk_world (dict_set (files w) p c) (denied w) (failing w) (log w).
Definition logged (e : exn) (w : world) : world :=
  mk_world (files w) (denied w) (failing w) (log w ++ [e]).

(** [os.makedirs(d, exist_ok=True)]; directories are not files. *)
Definition makedirs (d : string) : io unit :=
  fun w => if path_denied w d then (w, Raise OSError) else (w, Ok tt).

(** [open(p, mode)] for writing: the file is created or truncated. *)
Definition open_w (p : string) : io unit :=
  fun w => if path_denied w p then (w, Raise OSError)
           else (put p Incomplete w, Ok tt).

(** [json.dump(c, f)] or [f.write(c)] on the open file, then the close
    of the [with] block: a failing write leaves the file incomplete. *)
Definition write_all (p : string) (c : content) : io unit :=
  fun w => if path_failing w p then (w, Raise OSError)
           else (put p c w, Ok tt).

(** [with open(p, mode) as f: f.write(c)] *)
Definition write_file (p : string) (c : content) : io unit :=
  io_bind (open_w p) (fun _ => write_all p c).

(** [logger.error(f"Failed to save model: {e}")] *)
Definition logger_error (e : exn) : io unit :=
  fun w => (logged e w, Ok tt).

(** What the inner loop appends for one tensor: the shape, the
    quantization parameters when present, the data. *)
Definition append_entry (weight_data : list Z) (weight_info : weight_info)
  : result (list Z * Z) :=
  shape_bytes <- Struct.pack_ints (wi_shape weight_info) ;;
  let weight_data := weight_data ++ shape_bytes in
  weight_data <-
    match wi_quant weight_info with
    | Some (scale, zero_point, bits) =>
        scale_bytes <- Struct.pack_f scale ;;
        zero_point_bytes <- Struct.pack_i zero_point ;;
        bits_bytes <- Struct.pack_i bits ;;
        Ok (weight_data ++ scale_bytes ++ zero_point_bytes ++ bits_bytes)
    | None => Ok weight_data
    end ;;
  let data_bytes := tobytes (wi_data weight_info) in
  Ok (weight_data ++ data_bytes, len data_bytes).

(** [for weight_name, weight_info in layer_weights.items(): ...] on
    the state [(weight_data, total_weights_size, layer_offsets)]. *)
Fixpoint layer_loop (layer_weights : dict weight_info)
         (st : list Z * Z * dict Z) : result (list Z * Z * dict Z) :=
  match layer_weights with
  | [] => Ok st
  | (weight_name, weight_info) :: rest =>
      let '(weight_data, total_weights_size, layer_offsets) := st in
      let layer_offsets := dict_set layer_offsets weight_name (len weight_data) in
      '(weight_data, n) <- append_entry weight_data weight_info ;;
      layer_loop rest (weight_data, total_weights_size + n, layer_offsets)
  end.

(** [for layer_name, layer_weights in weights.items(): ...] on the
    state [(weight_data, total_weights_size, weight_offsets)]. *)
Fixpoint store_loop (weights : store)
         (st : list Z * Z * dict (dict Z)) : result (list Z * Z * dict (dict Z)) :=
  match weights with
  | [] => Ok st
  | (layer_name, layer_weights) :: rest =>
      let '(weight_data, total_weights_size, weight_offsets) := st in
      '(weight_data, total_weights_size, layer_offsets) <-
        layer_loop layer_weights (weight_data, total_weights_size, []) ;;
      store_loop rest (weight_data, total_weights_size,
                       dict_set weight_offsets layer_name layer_offsets)
  end.

(** The part of [_save_model] between [makedirs] and the writes. *)
Definition build_files (model : dict value)
  : result (dict value * list Z) :=
  let metadata := filter (fun kv => negb (String.eqb (fst kv) "weights")) model in
  weights <- match dict_get model "weights" with
             | Some (Weights w) => Ok w
             | Some _ => Raise TypeError
             | None => Raise KeyError
             end ;;
  '(weight_data, total_weights_size, weight_offsets) <-
    store_loop weights ([], 0, []) ;;
  let metadata := dict_set metadata "weight_offsets" (Offsets weight_offsets) in
  Ok (metadata, weight_data).

Definition metadata_path (output_path : string) : string :=
  (Os.splitext_root output_path ++ ".json")%string.
Definition weights_path (output_path : string) : string :=
  (Os.splitext_root output_path ++ ".bin")%string.

(** [_save_model(self, model, output_path)] *)
Definition _save_model (self : converter) (model : dict value)
           (output_path : string) : io bool :=
  try_except
    (io_bind (makedirs (Os.dirname output_path)) (fun _ =>
     io_bind (lift (build_files model)) (fun '(metadata, weight_data) =>
     io_bind (write_file (metadata_path output_path) (Text metadata)) (fun _ =>
     io_bind (write_file (weights_path output_path) (Binary weight_data)) (fun _ =>
     io_ret true)))))
    (fun e => io_bind (logger_error e) (fun _ => io_ret false)).

End Methods.
End PyTorchConverter.

Module TensorFlowConverter.
Import IEEE Np.

Section Methods.
(** [KMeans(n_clusters=k, random_state=0).fit(X)] *)
Variable KMeans_fit : Sklearn.KMeans.

(** [_prune_weights(self, weights, threshold)] *)
Definition _prune_weights (weights : ndarray) (threshold : spec_float)
  : result ndarray :=
  let mask := greater (abs weights) threshold in
  let pruned_weights := mul_mask weights mask in
  let sparsity := sub binary64 (py_float 1)
                      (div binary64 (py_float (count_nonzero mask))
                                    (py_float (size mask))) in
  Ok pruned_weights.

(** [_apply_weight_clustering(self, weights, num_clusters)] *)
Definition _apply_weight_clustering (weights : ndarray) (num_clusters : Z)
  : result ndarray :=
  let original_shape := shape weights in
  let flattened := flatten weights in
  if len (unique flattened) <=? num_clusters then Ok weights
  else
    kmeans <- KMeans_fit num_clusters flattened ;;
    clustered <- Sklearn.take (Sklearn.cluster_centers_ kmeans)
                              (Sklearn.labels_ kmeans) ;;
    reshape clustered original_shape.

(** One turn of the packing loop:
    [quantized[i] = (int(qf[i*2]) << 4) | int(qf[i*2+1])] *)
Definition pack_pair (quantized_float : ndarray) (i : Z) (quantized : ndarray)
  : result ndarray :=
  a <- getitem quantized_float (i * 2) ;;
  hi <- int_ a ;;
  b <- getitem quantized_float (i * 2 + 1) ;;
  lo <- int_ b ;;
  setitem quantized i (Z.lor (Z.shiftl hi 4) lo).

(** [_quantize_weights(self, weights, bits)]; [None] is what Python
    returns when the function body ends without a [return]. *)
Definition _quantize_weights (weights : ndarray) (bits : Z)
  : result (option (ndarray * scalar * Z)) :=
  if bits =? 32 then Ok (Some (weights, PyFloat (py_float 1), 0))
  else if bits =? 16 then
    Ok (Some (astype_float16 weights, PyFloat (py_float 1), 0))
  else
    hi <- max weights ;;
    lo <- min weights ;;
    let data_range := NpFloat32 (sub binary32 hi lo) in
    let data_range :=
      if scalar_eq0 data_range then PyFloat (py_float 1) else data_range in
    if bits =? 8 then
      let zero_point := 0 in
      let scale := scalar_div data_range (py_float 255) in
      let quantized :=
        astype_uint8 (round (add_int (div_scalar weights scale) zero_point)) in
      Ok (Some (quantized, scale, zero_point))
    else if bits =? 4 then
      let zero_point := 0 in
      let scale := scalar_div data_range (py_float 15) in
      let quantized_float :=
        clip (round (add_int (div_scalar weights scale) zero_point)) 0 15 in
      if size weights mod 2 =? 0 then
        quantized <- for_ (range (size weights / 2)) (pack_pair quantized_float)
                          (zeros_uint8 (size weights / 2)) ;;
        Ok (Some (quantized, scale, zero_point))
      else
        quantized <- for_ (range (size weights / 2)) (pack_pair quantized_float)
                          (zeros_uint8 (size weights / 2 + 1)) ;;
        quantized <- (if size weights >? 1 then
                        a <- getitem quantized_float (-1) ;;
                        v <- int_ a ;;
                        setitem quantized (-1) (Z.shiftl v 4)
                      else Ok quantized) ;;
        Ok (Some (quantized, scale, zero_point))
    else Ok None.

End Methods.
End TensorFlowConverter.

Module ONNXConverter.
Import IEEE Np.

Section Methods.
(** [KMeans(n_clusters=k, random_state=0).fit(X)] *)
Variable KMeans_fit : Sklearn.KMeans.

(** [_prune_weights(self, weights, threshold)] *)
Definition _prune_weights (weights : ndarray) (threshold : spec_float)
  : result ndarray :=
  let mask := greater (abs weights) threshold in
  let pruned_weights := mul_mask weights mask in
  let sparsity := sub binary64 (py_float 1)
                      (div binary64 (py_float (count_nonzero mask))
                                    (py_float (size mask))) in
  Ok pruned_weights.

(** [_apply_weight_clustering(self, weights, num_clusters)] *)
Definition _apply_weight_clustering (weights : ndarray) (num_clusters : Z)
  : result ndarray :=
  let original_shape := shape weights in
  let flattened := flatten weights in
  if len (unique flattened) <=? num_clusters then Ok weights
  else
    kmeans <- KMeans_fit num_clusters flattened ;;
    clustered <- Sklearn.take (Sklearn.cluster_centers_ kmeans)
                              (Sklearn.labels_ kmeans) ;;
    reshape clustered original_shape.

(** One turn of the packing loop:
    [quantized[i] = (int(qf[i*2]) << 4) | int(qf[i*2+1])] *)
Definition pack_pair (quantized_float : ndarray) (i : Z) (quantized : ndarray)
  : result ndarray :=
  a <- getitem quantized_float (i * 2) ;;
  hi <- int_ a ;;
  b <- getitem quantized_float (i * 2 + 1) ;;
  lo <- int_ b ;;
  setitem quantized i (Z.lor (Z.shiftl hi 4) lo).

(** [_quantize_weights(self, weights, bits)]; [None] is what Python
    returns when the function body ends without a [return]. *)
Definition _quantize_weights (weights : ndarray) (bits : Z)
  : result (option (ndarray * scalar * Z)) :=
  if bits =? 32 then Ok (Some (weights, PyFloat (py_float 1), 0))
  else if bits =? 16 then
    Ok (Some (astype_float16 weights, PyFloat (py_float 1), 0))
  else
    hi <- max weights ;;
    lo <- min weights ;;
    let data_range := NpFloat32 (sub binary32 hi lo) in
    let data_range :=
      if scalar_eq0 data_range then PyFloat (py_float 1) else data_range in
    if bits =? 8 then
      let zero_point := 0 in
      let scale := scalar_div data_range (py_float 255) in
      let quantized :=
        astype_uint8 (round (add_int (div_scalar weights scale) zero_point)) in
      Ok (Some (quantized, scale, zero_point))
    else if bits =? 4 then
      let zero_point := 0 in
      let scale := scalar_div data_range (py_float 15) in
      let quantized_float :=
        clip (round (add_int (div_scalar weights scale) zero_point)) 0 15 in
      if size weights mod 2 =? 0 then
        quantized <- for_ (range (size weights / 2)) (pack_pair quantized_float)
                          (zeros_uint8 (size weights / 2)) ;;
        Ok (Some (quantized, scale, zero_point))
      else
        quantized <- for_ (range (size weights / 2)) (pack_pair quantized_float)
                          (zeros_uint8 (size weights / 2 + 1)) ;;
        quantized <- (if size weights >? 1 then
                        a <- getitem quantized_float (-1) ;;
                        v <- int_ a ;;
                        setitem quantized (-1) (Z.shiftl v 4)
                      else Ok quantized) ;;
        Ok (Some (quantized, scale, zero_point))
    else Ok None.

End Methods.
End ONNXConverter.

(* ================================================================== *)
(** ** Example data                                                    *)
(* ================================================================== *)

(** The float32 item nearest to the fraction [n / d]. *)
Definition lit (n d : Z) : Z :=
  Np.w32 (IEEE.cast IEEE.binary32 (IEEE.div IEEE.binary64 (py_float n) (py_float d))).

(** The one-dimensional float32 tensor of the given fractions. *)
Definition tensor (l : list (Z * Z)) : Np.ndarray :=
  Np.mk_ndarray Np.float32 [Np.len l] (map (fun '(n, d) => lit n d) l).

(** [[-1.0, -0.5, 0.0, 0.5, 1.0]] *)
Definition example_weights : Np.ndarray :=
  tensor [(-1, 1); (-1, 2); (0, 1); (1, 2); (1, 1)].

(** The levels [int(quantized_float[j])] the 4-bit branch reads, for
    the scale and zero point it computed. *)
Definition quantized_levels (weights : Np.ndarray) (scale : Np.scalar)
           (zero_point : Z) : result (list Z) :=
  let quantized_float :=
    Np.clip (Np.round (Np.add_int (Np.div_scalar weights scale) zero_point)) 0 15 in
  mapM (fun j => a <- Np.getitem quantized_float j ;; Np.int_ a)
       (Np.range (Np.size weights)).

(** A clustering library that puts every value in one cluster with
    centroid 0. *)
Definition one_cluster : Sklearn.KMeans :=
fun _ a => Ok (Sklearn.mk_fitted [lit 0 1] (map (fun _ => 0) (Np.buffer a))).

(** A computation that does not end in a division error. *)
Definition no_division {A} (c : result A) : Prop :=
forall e, c = Raise e -> e <> ZeroDivisionError.

(** The owner and role under which [_process_weights] files a
    parameter: its name split at the last dot, the owner [model] when
    the name has no dot. *)
Definition param_key (p : PyTorchConverter.parameter) : string * string :=
match rsplit1 "."%char (PyTorchConverter.name p) with
| Some (m, t) => (m, t)
| None => ("model"%string, PyTorchConverter.name p)
end.

(** [s[owner][role]], when both keys are present. *)
Definition entry {V} (s : dict (dict V)) (owner role : string) : option V :=
match dict_get s owner with
| Some l => dict_get l role
| None => None
end.

(** The store has a tensor under a key. *)
Definition stored {V} (s : dict (dict V)) (key : string * string) : bool :=
match entry s (fst key) (snd key) with
| Some _ => true
| None => false
end.

(** [_process_weights] handles the parameter: it is trainable or the
    converter is verbose. *)
Definition handled (self : PyTorchConverter.converter)
           (p : PyTorchConverter.parameter) : bool :=
PyTorchConverter.requires_grad p || PyTorchConverter.verbose self.

(** The role is quantized: it contains [weight] or [bias]. *)
Definition quantized_role (role : string) : bool :=
str_in "weight" role || str_in "bias" role.

(** The bit width [_process_weights] asks for a role. *)
Definition bits_for (self : PyTorchConverter.converter) (role : string) : Z :=
if PyTorchConverter.mixed_precision self then
  if str_in "weight" role then PyTorchConverter.quantize_bits self else 8
else PyTorchConverter.quantize_bits self.



(** The twelve bytes after the shape of a quantized tensor: scale,
    zero point, bits; nothing for a raw tensor. *)
Definition quant_header (wi : PyTorchConverter.weight_info) : result (list Z) :=
match PyTorchConverter.wi_quant wi with
| Some (scale, zero_point, bits) =>
    scale_bytes <- Struct.pack_f scale ;;
    zero_point_bytes <- Struct.pack_i zero_point ;;
    bits_bytes <- Struct.pack_i bits ;;
    Ok (scale_bytes ++ zero_point_bytes ++ bits_bytes)
| None => Ok []
end.

(** The buffer at the moment the loops of [_save_model] reach the
    tensor that follows the owners [pre] and, within its owner, the
    roles [lpre]. *)
Definition written_before (pre : PyTorchConverter.store)
           (lpre : dict PyTorchConverter.weight_info) : result (list Z) :=
'(b0, t0, _) <- PyTorchConverter.store_loop pre ([], 0, []) ;;
'(b, _, _) <- PyTorchConverter.layer_loop lpre (b0, t0, []) ;;
Ok b.

(** A tensor [struct.pack] accepts: dimensions, zero point and bits
    are 32-bit integers. *)
Definition int32 (v : Z) : Prop := - 2 ^ 31 <= v < 2 ^ 31.
Definition packable (wi : PyTorchConverter.weight_info) : Prop :=
Forall int32 (PyTorchConverter.wi_shape wi) /\
match PyTorchConverter.wi_quant wi with
| Some (scale, zero_point, bits) => int32 zero_point /\ int32 bits
| None => True
end.
Definition all_packable (weights : PyTorchConverter.store) : Prop :=
forall o lw r wi, In (o, lw) weights -> In (r, wi) lw -> packable wi.

(** A small store: a 4-bit weight of two values and a raw bias. *)
Definition example_weight : PyTorchConverter.weight_info :=
PyTorchConverter.mk_weight_info (Np.mk_ndarray Np.uint8 [1] [255])
  (Some (Np.PyFloat (py_float 1), 0, 4)) [2].
Definition example_bias : PyTorchConverter.weight_info :=
PyTorchConverter.mk_weight_info (tensor [(1, 1)]) None [1].
Definition example_store : PyTorchConverter.store :=
[("fc"%string, [("weight"%string, example_weight); ("bias"%string, example_bias)])].

(** Nothing stands in the way of [_save_model]: the directory can be
    made and both files open and take their content. *)
Definition writable (w : PyTorchConverter.world) (output_path : string) : Prop :=
PyTorchConverter.path_denied w (Os.dirname output_path) = false /\
PyTorchConverter.path_denied w (PyTorchConverter.metadata_path output_path) = false /\
PyTorchConverter.path_failing w (PyTorchConverter.metadata_path output_path) = false /\
PyTorchConverter.path_denied w (PyTorchConverter.weights_path output_path) = false /\
PyTorchConverter.path_failing w (PyTorchConverter.weights_path output_path) = false.

(** [abs(w) > threshold] on a float32 item, as [_prune_weights] tests it. *)
Definition above (threshold : spec_float) (w : Z) : bool :=
SFltb (IEEE.cast IEEE.binary32 threshold) (SFabs (Np.f32 w)).

(** A value that is neither infinite nor a NaN. *)
Definition finite (x : spec_float) : bool :=
match x with
| S754_zero _ | S754_finite _ _ _ => true
| _ => false
end.

(** Every tensor of a store is filed as its role asks: quantized with
    zero point 0 at the width of the role when the role names a weight
    or a bias, raw otherwise. *)
Definition filed_as_configured (self : PyTorchConverter.converter)
           (s : PyTorchConverter.store) : Prop :=
forall o r wi,
  entry s o r = Some wi ->
  if quantized_role r
  then exists scale, PyTorchConverter.wi_quant wi = Some (scale, 0, bits_for self r)
  else PyTorchConverter.wi_quant wi = None.

(** The bytes a tensor takes in the blob before its data, and the
    bytes of its data. *)
Definition header_size (wi : PyTorchConverter.weight_info) : Z :=
4 * Np.len (PyTorchConverter.wi_shape wi) +
match PyTorchConverter.wi_quant wi with Some _ => 12 | None => 0 end.
Definition payload_size (wi : PyTorchConverter.weight_info) : Z :=
Np.len (Np.tobytes (PyTorchConverter.wi_data wi)).

(** Sums over the tensors of a store. *)
Definition sum_layer (f : PyTorchConverter.weight_info -> Z)
           (lw : dict PyTorchConverter.weight_info) : Z :=
fold_right (fun kv acc => f (snd kv) + acc) 0 lw.
Definition sum_store (f : PyTorchConverter.weight_info -> Z)
           (s : PyTorchConverter.store) : Z :=
fold_right (fun kv acc => sum_layer f (snd kv) + acc) 0 s.

(** A clustering library that rejects every call. *)
Definition no_kmeans : Sklearn.KMeans := fun _ _ => Raise ValueError.

(* ================================================================== *)
(** ** Quantization                                                    *)
(* ================================================================== *)

Section Quantization.
Import IEEE Np PyTorchConverter.

Lemma example_weights_items :
  buffer example_weights =
  [0xBF800000; 0xBF000000; 0x00000000; 0x3F000000; 0x3F800000].
Proof. vm_compute. reflexivity. Qed.

(** In single precision [1.0 / (2.0/15)] falls just below 7.5 and
    rounds to 7; in double precision the same quotient is 7.5 and
    rounds to the even 8. *)
Lemma single_precision_quotient :
  let scale := div binary32 (f32 (lit 2 1)) (f32 (lit 15 1)) in
  encode binary32 scale = 0x3E088889 /\
  encode binary32 (div binary32 (f32 (lit 1 1)) scale) = 0x40EFFFFF /\
  trunc (rint binary32 (div binary32 (f32 (lit 1 1)) scale)) = Ok 7 /\
  trunc (rint binary64
           (div binary64 (py_float 1) (div binary64 (py_float 2) (py_float 15))))
  = Ok 8.
Proof. vm_compute. repeat split. Qed.

(** C1, as the spec states it, fails: the levels of
    [[-1.0, -0.5, 0.0, 0.5, 1.0]] at 4 bits are [[0, 0, 0, 4, 7]] and
    the bytes [0x00, 0x04, 0x70], not [[0, 4, 8, 11, 15]] and
    [0x04, 0x8B, 0xF0]: the zero point is 0, so the negative values
    clamp to level 0. *)
Lemma C1_counterexample :
  (exists scale,
      _quantize_weights example_weights 4 =
      Ok (Some (mk_ndarray uint8 [3] [0x00; 0x04; 0x70], scale, 0)) /\
      quantized_levels example_weights scale 0 = Ok [0; 0; 0; 4; 7]) /\
  [0; 0; 0; 4; 7] <> [0; 4; 8; 11; 15] /\
  [0x00; 0x04; 0x70] <> [0x04; 0x8B; 0xF0].
Proof.
  split; [ | split; discriminate ].
  exists (NpFloat32 (div binary32 (f32 (lit 2 1)) (f32 (lit 15 1)))).
  split; vm_compute; reflexivity.
Qed.

(** C1 (amended): for the float32 tensor [[-1.0, -0.5, 0.0, 0.5, 1.0]]
    at 4 bits, [_quantize_weights] computes [data_range = 2.0],
    [scale = 2.0/15] in single precision and [zero_point = 0], reads
    the levels [clip(round(v/scale + 0), 0, 15) = [0, 0, 0, 4, 7]] and
    packs them into exactly 3 bytes, [0x00], [0x04], [0x70]. *)
Theorem C1_quantize_example :
  max example_weights = Ok (f32 (lit 1 1)) /\
  min example_weights = Ok (f32 (lit (-1) 1)) /\
  sub binary32 (f32 (lit 1 1)) (f32 (lit (-1) 1)) = f32 (lit 2 1) /\
  let scale := NpFloat32 (div binary32 (f32 (lit 2 1)) (f32 (lit 15 1))) in
  quantized_levels example_weights scale 0 = Ok [0; 0; 0; 4; 7] /\
  _quantize_weights example_weights 4 =
  Ok (Some (mk_ndarray uint8 [3] [0x00; 0x04; 0x70], scale, 0)) /\
  len (tobytes (mk_ndarray uint8 [3] [0x00; 0x04; 0x70])) = 3.
Proof. vm_compute. repeat split. Qed.

(** Two equal values that are not infinite have difference zero, so a
    tensor of finite values whose maximum equals its minimum has
    [data_range == 0]. *)
Lemma equal_extremes_zero_range (f : format) (hi lo : spec_float) :
  SFeqb hi lo = true ->
  match hi with S754_infinity _ => False | _ => True end ->
  SFeqb (sub f hi lo) (S754_zero false) = true.
Proof.
  unfold SFeqb, sub.
  destruct hi as [s1 | s1 | | s1 m1 e1], lo as [s2 | s2 | | s2 m2 e2];
    simpl; intros H Hinf; try discriminate H; try tauto;
    try (destruct s1; discriminate H); try (destruct s2; discriminate H).
  - destruct s1, s2; reflexivity.
  - assert (Hs : s1 = s2 /\ e1 = e2 /\ m1 = m2).
    { destruct s1, s2; try discriminate H;
        destruct (Z.compare_spec e1 e2); try discriminate H;
        rewrite Pos.compare_cont_spec in H; simpl in H;
        (destruct (Pos.compare_spec m1 m2) as [Hm | Hm | Hm];
         [ auto | discriminate H | discriminate H ]). }
    destruct Hs as [-> [-> ->]].
    rewrite Z.min_id. unfold shl_align. rewrite Z.sub_diag. cbn [fst].
    reflexivity.
Qed.

Lemma no_division_bind {A B} (c : result A) (k : A -> result B) :
  no_division c -> (forall a, no_division (k a)) -> no_division (bind c k).
Proof.
  intros Hc Hk e. destruct c as [a | e']; simpl.
  - apply Hk.
  - intros [= <-]. now apply Hc.
Qed.

Lemma no_division_Ok {A} (a : A) : no_division (Ok a).
Proof. intros e; discriminate. Qed.

Lemma no_division_getitem a k : no_division (getitem a k).
Proof.
  unfold getitem. intros e. destruct (shape a); [ intros [= <-]; discriminate | ].
  destruct (_ && _); [ discriminate | intros [= <-]; discriminate ].
Qed.

Lemma no_division_int_ a : no_division (int_ a).
Proof.
  unfold int_, trunc. intros e.
  destruct (shape a); [ | intros [= <-]; discriminate ].
  destruct (buffer a) as [ | w [ | ? ?]]; try (intros [= <-]; discriminate).
  destruct (f32 w); try discriminate; intros [= <-]; discriminate.
Qed.

Lemma no_division_setitem a k v : no_division (setitem a k v).
Proof.
  unfold setitem. intros e.
  destruct (shape a) as [ | d [ | ? ?]]; try (intros [= <-]; discriminate).
  destruct (_ && _); [ | intros [= <-]; discriminate ].
  destruct (_ && _); [ discriminate | intros [= <-]; discriminate ].
Qed.

Lemma no_division_pack_pair qf i q : no_division (pack_pair qf i q).
Proof.
  unfold pack_pair.
  repeat (apply no_division_bind; [ | intros ? ]);
    auto using no_division_getitem, no_division_int_, no_division_setitem.
Qed.

Lemma no_division_for_ {S} (body : Z -> S -> result S) l :
  (forall i s, no_division (body i s)) -> forall s, no_division (for_ l body s).
Proof.
  intros Hb. induction l as [ | i l IH]; intros s; simpl.
  - apply no_division_Ok.
  - apply no_division_bind; auto.
Qed.

(** With [data_range == 0] the 4-bit branch either returns the scale
    [1.0/15] or raises something that is not a division error. *)
Lemma quantize4_zero_range weights hi lo :
  max weights = Ok hi -> min weights = Ok lo ->
  SFeqb (sub binary32 hi lo) (S754_zero false) = true ->
  (exists q, _quantize_weights weights 4 =
             Ok (Some (q, PyFloat (div binary64 (py_float 1) (py_float 15)), 0))) \/
  (exists e, _quantize_weights weights 4 = Raise e /\ e <> ZeroDivisionError).
Proof.
  intros Hhi Hlo H0. unfold _quantize_weights.
  change (4 =? 32) with false. change (4 =? 16) with false.
  change (4 =? 8) with false. change (4 =? 4) with true. cbv iota.
  rewrite Hhi, Hlo. simpl bind. unfold scalar_eq0. rewrite H0.
  set (qf := clip _ _ _). unfold scalar_div.
  destruct (size weights mod 2 =? 0).
  - destruct (for_ _ _ _) as [q | e] eqn:E; simpl.
    + left. eexists. reflexivity.
    + right. exists e. split; [ reflexivity | ].
      eapply no_division_for_; [ | exact E ]. apply no_division_pack_pair.
  - destruct (for_ _ _ _) as [q | e] eqn:E; simpl.
    + destruct (size weights >? 1).
      * destruct (bind (getitem qf (-1)) _) as [q' | e] eqn:E'; simpl.
        -- left. eexists. reflexivity.
        -- right. exists e. split; [ reflexivity | ].
           revert E'. apply no_division_bind; [ apply no_division_getitem | ].
           intros a. apply no_division_bind; [ apply no_division_int_ | ].
           intros v. apply no_division_setitem.
      * left. eexists. reflexivity.
    + right. exists e. split; [ reflexivity | ].
      eapply no_division_for_; [ | exact E ]. apply no_division_pack_pair.
Qed.

(** C2, as the spec states it, fails: for the constant tensor
    [[0.5, 0.5]] the returned scale is [1.0/255] at 8 bits and
    [1.0/15] at 4 bits, not [1.0]. *)
Lemma C2_counterexample :
  (exists q8 q4 s8 s4,
      _quantize_weights (tensor [(1, 2); (1, 2)]) 8 = Ok (Some (q8, PyFloat s8, 0)) /\
      _quantize_weights (tensor [(1, 2); (1, 2)]) 4 = Ok (Some (q4, PyFloat s4, 0)) /\
      SFeqb s8 (py_float 1) = false /\ SFeqb s4 (py_float 1) = false) /\
  max (tensor [(1, 2); (1, 2)]) = min (tensor [(1, 2); (1, 2)]).
Proof.
  split; [ | reflexivity ].
  exists (mk_ndarray uint8 [2] [127; 127]), (mk_ndarray uint8 [1] [0x77]),
    (div binary64 (py_float 1) (py_float 255)),
    (div binary64 (py_float 1) (py_float 15)).
  repeat split; vm_compute; reflexivity.
Qed.

(** C2 (amended): for every tensor with [data_range == 0], quantizing
    at 8 or 4 bits never raises a division error; the range is
    replaced by [1.0], so the returned scale is [1.0/255] at 8 bits,
    where the call always returns, and [1.0/15] at 4 bits whenever
    the call returns; the zero point is 0. *)
Theorem C2_zero_range_scale (weights : ndarray) (hi lo : spec_float) :
  max weights = Ok hi -> min weights = Ok lo ->
  SFeqb (sub binary32 hi lo) (S754_zero false) = true ->
  (exists q, _quantize_weights weights 8 =
             Ok (Some (q, PyFloat (div binary64 (py_float 1) (py_float 255)), 0))) /\
  ((exists q, _quantize_weights weights 4 =
              Ok (Some (q, PyFloat (div binary64 (py_float 1) (py_float 15)), 0))) \/
   (exists e, _quantize_weights weights 4 = Raise e /\ e <> ZeroDivisionError)).
Proof.
  intros Hhi Hlo H0. split; [ | now apply quantize4_zero_range with hi lo ].
  unfold _quantize_weights.
  change (8 =? 32) with false. change (8 =? 16) with false.
  change (8 =? 8) with true. cbv iota.
  rewrite Hhi, Hlo. simpl bind. unfold scalar_eq0. rewrite H0.
  eexists. reflexivity.
Qed.

Lemma C2_zero_range_scale_witness :
  (exists q, _quantize_weights (tensor [(1, 2); (1, 2)]) 8 =
             Ok (Some (q, PyFloat (div binary64 (py_float 1) (py_float 255)), 0))) /\
  ((exists q, _quantize_weights (tensor [(1, 2); (1, 2)]) 4 =
              Ok (Some (q, PyFloat (div binary64 (py_float 1) (py_float 15)), 0))) \/
   (exists e, _quantize_weights (tensor [(1, 2); (1, 2)]) 4 = Raise e /\
              e <> ZeroDivisionError)).
Proof.
  apply (C2_zero_range_scale (tensor [(1, 2); (1, 2)])
                             (f32 (lit 1 2)) (f32 (lit 1 2)));
    vm_compute; reflexivity.
Defined.

(** C3 at a tensor of one element: [[1.0]] has level 15, and the
    payload is the single byte [0x00], not [0xF0]; the guard
    [weights.size > 1] skips the only element.  The branch handles
    three elements, and it indexes only the first axis, so a 2x2
    tensor raises instead of packing. *)
Theorem C3_single_element_dropped :
  (exists scale,
      _quantize_weights (tensor [(1, 1)]) 4 =
      Ok (Some (mk_ndarray uint8 [1] [0x00], scale, 0)) /\
      quantized_levels (tensor [(1, 1)]) scale 0 = Ok [15]) /\
  (exists scale,
      _quantize_weights (tensor [(1, 1); (1, 1); (1, 1)]) 4 =
      Ok (Some (mk_ndarray uint8 [2] [0xFF; 0xF0], scale, 0)) /\
      quantized_levels (tensor [(1, 1); (1, 1); (1, 1)]) scale 0 = Ok [15; 15; 15]) /\
  _quantize_weights
    (mk_ndarray float32 [2; 2] [lit 1 1; lit 1 2; lit 0 1; lit 1 1]) 4 = Raise TypeError /\
  _quantize_weights (tensor []) 4 = Raise ValueError.
Proof.
  split; [ exists (PyFloat (div binary64 (py_float 1) (py_float 15)));
           split; vm_compute; reflexivity | ].
  split; [ exists (PyFloat (div binary64 (py_float 1) (py_float 15)));
           split; vm_compute; reflexivity | ].
  split; vm_compute; reflexivity.
Qed.

(** *** The 32-bit passthrough *)

Lemma le_word_le_bytes (n : nat) (w : Z) :
  le_word (le_bytes n w) = w mod 256 ^ Z.of_nat n.
Proof.
  revert w. induction n as [ | n IH]; intros w.
  - simpl. now rewrite Z.mod_1_r.
  - cbn [le_bytes le_word]. rewrite IH, Nat2Z.inj_succ, Z.pow_succ_r by lia.
    rewrite Z.rem_mul_r by lia. lia.
Qed.

Lemma length_le_bytes (n : nat) (w : Z) : length (le_bytes n w) = n.
Proof. revert w. induction n; intros w; simpl; auto. Qed.

Lemma length_flat_map_le_bytes (n : nat) (l : list Z) :
  length (flat_map (le_bytes n) l) = (n * length l)%nat.
Proof.
  induction l as [ | w l IH]; simpl; [ lia | ].
  rewrite length_app, length_le_bytes, IH. lia.
Qed.

Lemma chunks_flat_map (n : nat) (l : list Z) (fuel : nat) :
  (0 < n)%nat -> (length l <= fuel)%nat ->
  chunks fuel n (flat_map (le_bytes n) l) = map (le_bytes n) l.
Proof.
  intros Hn. revert fuel. induction l as [ | w l IH]; intros fuel Hf.
  - destruct fuel; reflexivity.
  - destruct fuel as [ | fuel]; [ simpl in Hf; lia | ].
    cbn [flat_map map chunks].
    destruct (le_bytes n w ++ flat_map (le_bytes n) l) eqn:E.
    + apply (f_equal (@length Z)) in E.
      rewrite length_app, length_le_bytes in E. simpl in E. lia.
    + rewrite <- E.
      rewrite firstn_app, length_le_bytes, Nat.sub_diag, firstn_O, app_nil_r.
      rewrite firstn_all2 by (rewrite length_le_bytes; lia).
      rewrite skipn_app, length_le_bytes, Nat.sub_diag, skipn_O.
      rewrite skipn_all2 by (rewrite length_le_bytes; lia).
      simpl. f_equal. apply IH. simpl in Hf. lia.
Qed.

(** Reading back the bytes of an array gives its items. *)
Lemma frombuffer_tobytes (a : ndarray) :
  wf a -> frombuffer (dtype_of a) (tobytes a) = buffer a.
Proof.
  intros (_ & _ & Hitems). unfold frombuffer, tobytes.
  set (n := Z.to_nat (itemsize (dtype_of a))).
  assert (Hn : (0 < n)%nat) by (subst n; destruct (dtype_of a); simpl; lia).
  rewrite chunks_flat_map; [ | assumption | rewrite length_flat_map_le_bytes; nia ].
  rewrite map_map. rewrite <- (map_id (buffer a)) at 2.
  apply map_ext_in. intros w Hw. rewrite le_word_le_bytes.
  rewrite Forall_forall in Hitems. specialize (Hitems w Hw).
  apply Z.mod_small. subst n.
  replace (256 ^ Z.of_nat (Z.to_nat (itemsize (dtype_of a))))
    with (2 ^ (8 * itemsize (dtype_of a))); [ assumption | ].
  destruct (dtype_of a); reflexivity.
Qed.

(** C7: for every float32 tensor [t], [_quantize_weights(t, 32)]
    returns [t] itself with [scale = 1.0] and [zero_point = 0]; its
    payload [t.tobytes()] is 4 bytes per element, and reading the
    payload back as float32 gives the items of [t] bit for bit. *)
Theorem C7_passthrough_roundtrip (t : ndarray) :
  wf t -> dtype_of t = float32 ->
  _quantize_weights t 32 = Ok (Some (t, PyFloat (py_float 1), 0)) /\
  encode binary64 (py_float 1) = 0x3FF0000000000000 /\
  len (tobytes t) = 4 * size t /\
  mk_ndarray float32 (shape t) (frombuffer float32 (tobytes t)) = t.
Proof.
  intros Hwf Hd. split; [ reflexivity | ]. split; [ reflexivity | ].
  split.
  - destruct Hwf as (_ & Hlen & _). unfold tobytes, len in *.
    rewrite length_flat_map_le_bytes, Hd. simpl itemsize. lia.
  - rewrite <- Hd at 2. rewrite frombuffer_tobytes by assumption.
    rewrite <- Hd. now destruct t.
Qed.

Lemma wf_example_weights : wf example_weights.
Proof.
  unfold wf. rewrite example_weights_items.
  split; [ repeat constructor; discriminate | ].
  split; [ reflexivity | ].
  repeat constructor; discriminate.
Qed.

Lemma C7_passthrough_roundtrip_witness :
  _quantize_weights example_weights 32 =
  Ok (Some (example_weights, PyFloat (py_float 1), 0)) /\
  encode binary64 (py_float 1) = 0x3FF0000000000000 /\
  len (tobytes example_weights) = 4 * size example_weights /\
  mk_ndarray float32 (shape example_weights)
             (frombuffer float32 (tobytes example_weights)) = example_weights.
Proof.
  exact (C7_passthrough_roundtrip example_weights wf_example_weights eq_refl).
Defined.

End Quantization.

(* ================================================================== *)
(** ** Clustering, and the three copies of the weight functions        *)
(* ================================================================== *)

Section Clustering.
Import IEEE Np.

Lemma take_in_range (centers labels : list Z) :
  Forall (fun l => 0 <= l < len centers) labels ->
  Sklearn.take centers labels =
  Ok (mk_ndarray float32 [len labels]
                 (map (fun l => nth (Z.to_nat l) centers 0) labels)).
Proof.
  intros H. unfold Sklearn.take.
  assert (E : mapM (Sklearn.pick centers) labels
              = Ok (map (fun l => nth (Z.to_nat l) centers 0) labels)).
  { induction H as [ | l ls [Hl0 Hl1] _ IH]; [ reflexivity | ].
    cbn [mapM map]. rewrite IH. unfold Sklearn.pick.
    destruct (Z.ltb_spec l 0); [ lia | ].
    destruct (Z.leb_spec 0 l); [ | lia ].
    destruct (Z.ltb_spec l (len centers)); [ | lia ].
    reflexivity. }
  rewrite E. simpl. unfold len. now rewrite length_map.
Qed.

(** C8: when [t] has at most [k] distinct values ([np.unique] of the
    flattened tensor has at most [k] items), [_apply_weight_clustering]
    returns [t] itself; otherwise, when k-means fits and labels every
    value with one of its clusters, the result has the shape of [t] and
    every value is replaced by the centroid of its label. *)
Theorem C8_cluster_identity_or_centroids
        (KMeans_fit : Sklearn.KMeans) (t : ndarray) (k : Z) :
  (len (unique (flatten t)) <= k ->
   PyTorchConverter._apply_weight_clustering KMeans_fit t k = Ok t) /\
  (k < len (unique (flatten t)) ->
   len (buffer t) = size t ->
   forall fit,
     KMeans_fit k (flatten t) = Ok fit ->
     len (Sklearn.labels_ fit) = len (buffer t) ->
     Forall (fun l => 0 <= l < len (Sklearn.cluster_centers_ fit))
            (Sklearn.labels_ fit) ->
     exists c,
       PyTorchConverter._apply_weight_clustering KMeans_fit t k = Ok c /\
       shape c = shape t /\
       buffer c = map (fun l => nth (Z.to_nat l) (Sklearn.cluster_centers_ fit) 0)
                      (Sklearn.labels_ fit)).
Proof.
  unfold PyTorchConverter._apply_weight_clustering. split.
  - intros H. destruct (Z.leb_spec (len (unique (flatten t))) k); [ reflexivity | lia ].
  - intros H Hsize fit Hfit Hlabels Hrange.
    destruct (Z.leb_spec (len (unique (flatten t))) k); [ lia | ].
    rewrite Hfit. simpl bind. rewrite take_in_range by assumption. simpl bind.
    unfold reshape. cbn [buffer dtype_of].
    assert (E : prod (shape t) =
                len (map (fun l => nth (Z.to_nat l) (Sklearn.cluster_centers_ fit) 0)
                         (Sklearn.labels_ fit))).
    { unfold len in *. rewrite length_map. unfold size in Hsize. lia. }
    rewrite E, Z.eqb_refl. eexists. repeat split.
Qed.

Lemma C8_cluster_identity_or_centroids_witness :
  PyTorchConverter._apply_weight_clustering one_cluster example_weights 5
  = Ok example_weights /\
  exists c,
    PyTorchConverter._apply_weight_clustering one_cluster example_weights 1 = Ok c /\
    shape c = shape example_weights /\
    buffer c = map (fun l => nth (Z.to_nat l) [lit 0 1] 0) [0; 0; 0; 0; 0].
Proof.
  split.
  - apply (C8_cluster_identity_or_centroids one_cluster example_weights 5).
    vm_compute. discriminate.
  - apply (proj2 (C8_cluster_identity_or_centroids one_cluster example_weights 1)
                 eq_refl eq_refl (Sklearn.mk_fitted [lit 0 1] [0; 0; 0; 0; 0])
                 eq_refl eq_refl).
    repeat constructor; vm_compute; congruence.
Defined.

(** C9: the three converters carry the same [_quantize_weights],
    [_prune_weights] and [_apply_weight_clustering]: on every tensor,
    bit width, threshold and cluster count (and the same k-means) the
    three return the same result. *)
Theorem C9_converters_agree
        (KMeans_fit : Sklearn.KMeans) (weights : ndarray)
        (bits : Z) (threshold : spec_float) (num_clusters : Z) :
  (PyTorchConverter._quantize_weights weights bits =
   TensorFlowConverter._quantize_weights weights bits /\
   TensorFlowConverter._quantize_weights weights bits =
   ONNXConverter._quantize_weights weights bits) /\
  (PyTorchConverter._prune_weights weights threshold =
   TensorFlowConverter._prune_weights weights threshold /\
   TensorFlowConverter._prune_weights weights threshold =
   ONNXConverter._prune_weights weights threshold) /\
  (PyTorchConverter._apply_weight_clustering KMeans_fit weights num_clusters =
   TensorFlowConverter._apply_weight_clustering KMeans_fit weights num_clusters /\
   TensorFlowConverter._apply_weight_clustering KMeans_fit weights num_clusters =
   ONNXConverter._apply_weight_clustering KMeans_fit weights num_clusters).
Proof.
  split; [ | split ].
  - unfold PyTorchConverter._quantize_weights, TensorFlowConverter._quantize_weights,
      ONNXConverter._quantize_weights.
    split; reflexivity.
  - split; reflexivity.
  - split; reflexivity.
Qed.

End Clustering.

(* ================================================================== *)
(** ** The processing loop of the PyTorch converter                    *)
(* ================================================================== *)

Section Processing.
Import IEEE Np PyTorchConverter.
Variable KMeans_fit : Sklearn.KMeans.

Lemma dict_get_set_same {V} (d : dict V) (k : string) (v : V) :
  dict_get (dict_set d k v) k = Some v.
Proof.
  induction d as [ | [k' v'] d IH]; simpl.
  - now rewrite String.eqb_refl.
  - destruct (String.eqb k' k) eqn:E; simpl; rewrite E; auto.
Qed.

Lemma dict_get_set_other {V} (d : dict V) (k k' : string) (v : V) :
  k' <> k -> dict_get (dict_set d k v) k' = dict_get d k'.
Proof.
  intros Hk. induction d as [ | [k0 v0] d IH]; simpl.
  - destruct (String.eqb_spec k k'); congruence.
  - destruct (String.eqb_spec k0 k) as [-> | Hne]; simpl.
    + destruct (String.eqb_spec k k'); congruence.
    + destruct (String.eqb_spec k0 k'); auto.
Qed.

(** Filing a tensor under [(owner, role)], as the end of the loop body
    does, binds that key and no other. *)
Lemma entry_after_filing {V} (s : dict (dict V)) (owner role : string) (v : V)
      (o r : string) :
  let s1 := if dict_mem s owner then s else dict_set s owner [] in
  let layer := match dict_get s1 owner with Some l => l | None => [] end in
  entry (dict_set s1 owner (dict_set layer role v)) o r =
  if String.eqb o owner && String.eqb r role then Some v else entry s o r.
Proof.
  intros s1 layer. unfold entry.
  destruct (String.eqb_spec o owner) as [-> | Ho]; simpl.
  - rewrite dict_get_set_same.
    destruct (String.eqb_spec r role) as [-> | Hr].
    + apply dict_get_set_same.
    + rewrite dict_get_set_other by assumption.
      subst layer s1. unfold dict_mem.
      destruct (dict_get s owner) as [l | ] eqn:E.
      * now rewrite E.
      * now rewrite dict_get_set_same.
  - rewrite dict_get_set_other by assumption.
    subst s1. destruct (dict_mem s owner); [ reflexivity | ].
    now rewrite dict_get_set_other by assumption.
Qed.

(** What one turn of the loop does to the store when it succeeds: the
    tensor, pruned and clustered as configured, is filed under the
    parameter's key, quantized at the width of its role when the role
    is a weight or a bias and raw otherwise; no other key changes. *)
Lemma process_parameter_filed (self : converter) (p : parameter) (s s' : store) :
  process_parameter KMeans_fit self p s = Ok s' ->
  exists wd wi,
    (if quantized_role (snd (param_key p)) then
       exists q scale zero_point,
         _quantize_weights wd (bits_for self (snd (param_key p)))
         = Ok (Some (q, scale, zero_point)) /\
         wi = mk_weight_info q
                (Some (scale, zero_point, bits_for self (snd (param_key p))))
                (shape wd)
     else wi = mk_weight_info wd None (shape wd)) /\
    forall o r,
      entry s' o r =
      if String.eqb o (fst (param_key p)) && String.eqb r (snd (param_key p))
      then Some wi else entry s o r.
Proof.
  unfold process_parameter, param_key, quantized_role, bits_for.
  destruct (rsplit1 "." (name p)) as [[m t] | ]; cbn [fst snd].
  all: destruct (match prune_threshold self with
                 | Some t0 => _prune_weights (data p) t0
                 | None => Ok (data p)
                 end) as [wd0 | e0]; [ | discriminate ].
  all: cbn [bind].
  all: destruct (match weight_clustering self with
                 | Some k => _apply_weight_clustering KMeans_fit wd0 k
                 | None => Ok wd0
                 end) as [wd | e1]; [ | discriminate ].
  all: cbn [bind].
  all: destruct (str_in "weight" _ || str_in "bias" _).
  all: try (destruct (_quantize_weights wd _) as [[[[q sc] zp] | ] | e2] eqn:Eq;
            cbn [bind]; try discriminate).
  all: cbn [bind]; intros [= <-]; exists wd; eexists.
  all: split; [ | intros o r; apply entry_after_filing ].
  all: try reflexivity.
  all: exists q, sc, zp; split; [ exact Eq | reflexivity ].
Qed.

Lemma stored_after_parameter (self : converter) (p : parameter) (s s' : store)
      (key : string * string) :
  process_parameter KMeans_fit self p s = Ok s' ->
  stored s' key = true <-> key = param_key p \/ stored s key = true.
Proof.
  intros H. apply process_parameter_filed in H as (wd & wi & _ & Hentry).
  unfold stored. rewrite Hentry. destruct key as [o r]. cbn [fst snd].
  destruct (String.eqb_spec o (fst (param_key p))) as [Ho | Ho];
    destruct (String.eqb_spec r (snd (param_key p))) as [Hr | Hr]; simpl.
  - split; [ left | reflexivity ].
    rewrite Ho, Hr. now destruct (param_key p).
  - split; [ now right | ]. intros [E | E]; [ | exact E ].
    rewrite <- E in Hr. now elim Hr.
  - split; [ now right | ]. intros [E | E]; [ | exact E ].
    rewrite <- E in Ho. now elim Ho.
  - split; [ now right | ]. intros [E | E]; [ | exact E ].
    rewrite <- E in Ho. now elim Ho.
Qed.

(** The keys of the store [_process_weights] returns are the keys of
    the parameters it handled. *)
Lemma stored_after_loop (self : converter) (params : list parameter) :
  forall (s s' : store) (key : string * string),
    process_loop KMeans_fit self params s = Ok s' ->
    stored s' key = true <->
    stored s key = true \/
    exists q, In q params /\ handled self q = true /\ param_key q = key.
Proof.
  induction params as [ | p ps IH]; intros s s' key H; simpl in H.
  - injection H as <-. split; [ now left | ].
    intros [E | (q & [] & _)]. exact E.
  - unfold handled in *.
    destruct (requires_grad p) eqn:Eg, (verbose self) eqn:Ev; simpl in H.
    1-3: destruct (process_parameter KMeans_fit self p s) as [s1 | e] eqn:Ep;
      [ simpl in H | discriminate ];
      rewrite (IH _ _ key H), (stored_after_parameter _ _ _ _ key Ep);
      (split;
       [ intros [[E | E] | (q & Hq & Hh & Hk)];
         [ right; exists p; rewrite Eg; simpl; auto
         | now left
         | right; exists q; simpl; auto ]
       | intros [E | (q & [<- | Hq] & Hh & Hk)];
         [ left; now right
         | left; now left
         | right; exists q; auto ] ]).
    rewrite (IH _ _ key H). split.
    + intros [E | (q & Hq & Hh & Hk)]; [ now left | right; exists q; simpl; auto ].
    + intros [E | (q & [<- | Hq] & Hh & Hk)];
        [ now left | rewrite Eg in Hh; discriminate | right; exists q; auto ].
Qed.

(** Without the verbose flag the parameters that need no gradient
    leave no trace: the loop runs as on the trainable ones alone. *)
Lemma loop_skips_frozen (self : converter) (params : list parameter) :
  verbose self = false ->
  forall s, process_loop KMeans_fit self params s =
            process_loop KMeans_fit self (filter requires_grad params) s.
Proof.
  intros Hv. induction params as [ | p ps IH]; intros s; [ reflexivity | ].
  simpl. rewrite Hv. destruct (requires_grad p) eqn:Eg; simpl.
  - rewrite Hv, Eg. simpl. destruct (process_parameter _ _ _ _); simpl; auto.
  - apply IH.
Qed.

(** C10: a parameter with [requires_grad == False] (whose key no
    trainable parameter shares) is in the store [_process_weights]
    returns if and only if the verbose flag is set; without the flag
    the frozen parameters are skipped altogether; and there are two
    runs that differ in nothing but the flag and return different
    stores. *)
Theorem C10_verbose_flag_decides_frozen_parameters :
  (forall (self : converter) (params : list parameter) (p : parameter)
          (store : store),
      In p params -> requires_grad p = false ->
      (forall q, In q params -> param_key q = param_key p ->
                 requires_grad q = false) ->
      _process_weights KMeans_fit self params = Ok store ->
      (stored store (param_key p) = true <-> verbose self = true)) /\
  (forall (self : converter) (params : list parameter),
      verbose self = false ->
      _process_weights KMeans_fit self params =
      _process_weights KMeans_fit self (filter requires_grad params)) /\
  (exists (bits : Z) (params : list parameter) (s1 s2 : store),
      _process_weights KMeans_fit
        (mk_converter bits false None None true false) params = Ok s1 /\
      _process_weights KMeans_fit
        (mk_converter bits false None None true true) params = Ok s2 /\
      s1 <> s2).
Proof.
  split; [ | split ].
  - intros self params p store Hin Hg Hkeys H. unfold _process_weights in H.
    rewrite (stored_after_loop _ _ _ _ (param_key p) H). split.
    + intros [E | (q & Hq & Hh & Hk)]; [ discriminate | ].
      unfold handled in Hh. rewrite (Hkeys q Hq Hk) in Hh. exact Hh.
    + intros Hv. right. exists p. unfold handled. rewrite Hv, Hg. auto.
  - intros self params Hv. apply loop_skips_frozen. exact Hv.
  - exists 32, [mk_parameter "fc.bias" false (tensor [(1, 1)])], [],
      [("fc"%string,
        [("bias"%string,
          mk_weight_info (tensor [(1, 1)]) (Some (PyFloat (py_float 1), 0, 32)) [1])])].
    split; [ reflexivity | ]. split; [ reflexivity | discriminate ].
Qed.



(** *** Unsupported bit widths *)





End Processing.

Section ProcessingExamples.
Import IEEE Np PyTorchConverter.

Lemma C10_verbose_flag_decides_frozen_parameters_witness :
  stored [("fc"%string,
           [("bias"%string,
             mk_weight_info (tensor [(1, 1)]) (Some (PyFloat (py_float 1), 0, 32)) [1])])]
         (param_key (mk_parameter "fc.bias" false (tensor [(1, 1)]))) = true <->
  verbose (mk_converter 32 false None None true true) = true.
Proof.
  apply (proj1 (C10_verbose_flag_decides_frozen_parameters no_kmeans)
               (mk_converter 32 false None None true true)
               [mk_parameter "fc.bias" false (tensor [(1, 1)])]
               (mk_parameter "fc.bias" false (tensor [(1, 1)]))).
  - left. reflexivity.
  - reflexivity.
  - intros q [<- | []] _. reflexivity.
  - reflexivity.
Defined.



End ProcessingExamples.

(* ================================================================== *)
(** ** Serialization                                                   *)
(* ================================================================== *)

Section Serialization.
Import IEEE Np PyTorchConverter.

Lemma pack_i_int32 (v : Z) : int32 v -> exists b, Struct.pack_i v = Ok b.
Proof.
  intros [H0 H1]. unfold Struct.pack_i.
  destruct (Z.leb_spec (- 2 ^ 31) v); [ | lia ].
  destruct (Z.ltb_spec v (2 ^ 31)); [ | lia ].
  eexists. reflexivity.
Qed.

Lemma pack_ints_int32 (vs : list Z) :
  Forall int32 vs -> exists b, Struct.pack_ints vs = Ok b.
Proof.
  induction 1 as [ | v vs Hv _ [b IH]]; simpl.
  - eexists. reflexivity.
  - destruct (pack_i_int32 v Hv) as [bv ->]. rewrite IH. simpl.
    eexists. reflexivity.
Qed.

Lemma quant_header_packable (wi : weight_info) :
  packable wi -> exists b, quant_header wi = Ok b.
Proof.
  unfold packable, quant_header. intros [_ H].
  destruct (wi_quant wi) as [[[sc zp] b] | ]; [ | eexists; reflexivity ].
  destruct H as (Hz & Hb). unfold Struct.pack_f. cbn [bind].
  destruct (pack_i_int32 zp Hz) as [bz ->].
  destruct (pack_i_int32 b Hb) as [bb ->]. cbn [bind]. eexists. reflexivity.
Qed.

(** One tensor appends its shape, its quantization parameters and its
    data to the buffer, whatever the buffer holds. *)
Lemma append_entry_spec (weight_data : list Z) (wi : weight_info) :
  append_entry weight_data wi =
  (shape_bytes <- Struct.pack_ints (wi_shape wi) ;;
   quant_bytes <- quant_header wi ;;
   Ok (weight_data ++ shape_bytes ++ quant_bytes ++ tobytes (wi_data wi),
       len (tobytes (wi_data wi)))).
Proof.
  unfold append_entry, quant_header.
  destruct (Struct.pack_ints (wi_shape wi)) as [sb | e]; [ cbn [bind] | reflexivity ].
  destruct (wi_quant wi) as [[[sc zp] b] | ]; cbn [bind].
  - destruct (Struct.pack_f sc); [ cbn [bind] | reflexivity ].
    destruct (Struct.pack_i zp); [ cbn [bind] | reflexivity ].
    destruct (Struct.pack_i b); [ cbn [bind] | reflexivity ].
    now rewrite <- !app_assoc.
  - simpl. now rewrite <- !app_assoc.
Qed.

Lemma layer_loop_app (l1 l2 : dict weight_info) (st : list Z * Z * dict Z) :
  layer_loop (l1 ++ l2) st = (st' <- layer_loop l1 st ;; layer_loop l2 st').
Proof.
  revert st. induction l1 as [ | [role wi] l1 IH]; intros [[wd tot] offs]; simpl.
  - reflexivity.
  - destruct (append_entry wd wi) as [[wd' n] | e]; simpl; [ apply IH | reflexivity ].
Qed.

Lemma store_loop_app (s1 s2 : store) (st : list Z * Z * dict (dict Z)) :
  store_loop (s1 ++ s2) st = (st' <- store_loop s1 st ;; store_loop s2 st').
Proof.
  revert st. induction s1 as [ | [owner lw] s1 IH]; intros [[wd tot] offs]; simpl.
  - reflexivity.
  - destruct (layer_loop lw (wd, tot, [])) as [[[wd' tot'] lo] | e]; simpl;
      [ apply IH | reflexivity ].
Qed.

(** The inner loop only appends, and leaves the offsets of the roles
    it does not meet. *)
Lemma layer_loop_grows (lw : dict weight_info) :
  forall wd tot offs wd' tot' offs',
    layer_loop lw (wd, tot, offs) = Ok (wd', tot', offs') ->
    (exists rest, wd' = wd ++ rest) /\
    (forall k, ~ In k (keys lw) -> dict_get offs' k = dict_get offs k).
Proof.
  induction lw as [ | [role wi] lw IH]; intros wd tot offs wd' tot' offs' H; simpl in H.
  - injection H as <- <- <-. split; [ exists []; now rewrite app_nil_r | auto ].
  - rewrite append_entry_spec in H.
    destruct (Struct.pack_ints (wi_shape wi)) as [sb | e]; [ cbn [bind] in H | discriminate ].
    destruct (quant_header wi) as [qb | e]; [ cbn [bind] in H | discriminate ].
    apply IH in H as [[rest ->] Hk]. split.
    + eexists. rewrite <- app_assoc. reflexivity.
    + intros k Hin. simpl in Hin. rewrite Hk by tauto.
      apply dict_get_set_other. intros ->. tauto.
Qed.

Lemma store_loop_grows (weights : store) :
  forall wd tot offs wd' tot' offs',
    store_loop weights (wd, tot, offs) = Ok (wd', tot', offs') ->
    (exists rest, wd' = wd ++ rest) /\
    (forall k, ~ In k (keys weights) -> dict_get offs' k = dict_get offs k).
Proof.
  induction weights as [ | [owner lw] ws IH]; intros wd tot offs wd' tot' offs' H;
    simpl in H.
  - injection H as <- <- <-. split; [ exists []; now rewrite app_nil_r | auto ].
  - destruct (layer_loop lw (wd, tot, [])) as [[[wd1 tot1] lo] | e] eqn:El;
      [ cbn [bind] in H | discriminate ].
    apply layer_loop_grows in El as [[r1 ->] _].
    apply IH in H as [[rest ->] Hk]. split.
    + eexists. rewrite <- app_assoc. reflexivity.
    + intros k Hin. simpl in Hin. rewrite Hk by tauto.
      apply dict_get_set_other. intros ->. tauto.
Qed.

(** Within one owner: the offset of a role is the length of the buffer
    when the loop reached it, and the tensor's bytes start there. *)
Lemma layer_loop_offsets (lpre lpost : dict weight_info) (role : string)
      (wi : weight_info) :
  forall wd tot offs wd' tot' offs',
    layer_loop (lpre ++ (role, wi) :: lpost) (wd, tot, offs) = Ok (wd', tot', offs') ->
    ~ In role (keys lpost) ->
    exists before t o shape_bytes quant_bytes rest,
      layer_loop lpre (wd, tot, offs) = Ok (before, t, o) /\
      dict_get offs' role = Some (len before) /\
      Struct.pack_ints (wi_shape wi) = Ok shape_bytes /\
      quant_header wi = Ok quant_bytes /\
      wd' = before ++ shape_bytes ++ quant_bytes ++ tobytes (wi_data wi) ++ rest.
Proof.
  intros wd tot offs wd' tot' offs' H Hrole. rewrite layer_loop_app in H.
  destruct (layer_loop lpre (wd, tot, offs)) as [[[before t] o] | e];
    [ cbn [bind] in H | discriminate ].
  cbn [layer_loop] in H. rewrite append_entry_spec in H.
  destruct (Struct.pack_ints (wi_shape wi)) as [sb | e]; [ cbn [bind] in H | discriminate ].
  destruct (quant_header wi) as [qb | e]; [ cbn [bind] in H | discriminate ].
  apply layer_loop_grows in H as [[rest ->] Hk].
  exists before, t, o, sb, qb, rest. repeat split; try reflexivity.
  - rewrite Hk by assumption. apply dict_get_set_same.
  - now rewrite <- !app_assoc.
Qed.

Lemma layer_loop_succeeds (lw : dict weight_info) :
  (forall r wi, In (r, wi) lw -> packable wi) ->
  forall st, exists st', layer_loop lw st = Ok st'.
Proof.
  induction lw as [ | [role wi] lw IH]; intros Hp [[wd tot] offs]; simpl.
  - eexists. reflexivity.
  - rewrite append_entry_spec.
    assert (Hwi : packable wi) by (apply (Hp role); now left).
    destruct (pack_ints_int32 _ (proj1 Hwi)) as [sb ->].
    destruct (quant_header_packable wi Hwi) as [qb ->]. cbn [bind].
    apply IH. intros r wi' Hin. apply (Hp r). now right.
Qed.

Lemma store_loop_succeeds (weights : store) :
  all_packable weights ->
  forall st, exists st', store_loop weights st = Ok st'.
Proof.
  unfold all_packable.
  induction weights as [ | [owner lw] ws IH]; intros Hp [[wd tot] offs]; simpl.
  - eexists. reflexivity.
  - destruct (layer_loop_succeeds lw (fun r wi => Hp owner lw r wi (or_introl eq_refl))
                                  (wd, tot, [])) as [[[wd1 tot1] lo] ->].
    cbn [bind]. apply IH. intros o l r wi Hin. apply (Hp o l r wi). now right.
Qed.

Lemma pack_ints_length (vs : list Z) (b : list Z) :
  Struct.pack_ints vs = Ok b -> len b = 4 * len vs.
Proof.
  revert b. induction vs as [ | v vs IH]; intros b H; simpl in H.
  - now injection H as <-.
  - unfold Struct.pack_i in H. destruct (_ && _); [ simpl in H | discriminate ].
    destruct (Struct.pack_ints vs) as [bs | e]; [ simpl in H | discriminate ].
    injection H as <-. specialize (IH bs eq_refl). unfold len in *.
    simpl length. lia.
Qed.

Lemma keys_app {V} (d1 d2 : dict V) : keys (d1 ++ d2) = keys d1 ++ keys d2.
Proof. apply map_app. Qed.

Lemma last_binding {V} (d1 d2 : dict V) (k : string) (v : V) :
  NoDup (keys (d1 ++ (k, v) :: d2)) -> ~ In k (keys d2).
Proof.
  rewrite keys_app. simpl. intros H Hin.
  apply NoDup_remove_2 in H. apply H. apply in_or_app. now right.
Qed.

(** The loops of [_save_model] on a store with unique keys: the offset
    recorded for a tensor is the length of the buffer when the loops
    reach it, and its header and data follow from there. *)
Lemma store_loop_offsets (weights : store) (blob : list Z) (total : Z)
      (offsets : dict (dict Z)) :
  NoDup (keys weights) ->
  (forall o lw, In (o, lw) weights -> NoDup (keys lw)) ->
  store_loop weights ([], 0, []) = Ok (blob, total, offsets) ->
  forall pre owner lw post lpre role wi lpost,
    weights = pre ++ (owner, lw) :: post ->
    lw = lpre ++ (role, wi) :: lpost ->
    exists before shape_bytes quant_bytes rest,
      written_before pre lpre = Ok before /\
      entry offsets owner role = Some (len before) /\
      Struct.pack_ints (wi_shape wi) = Ok shape_bytes /\
      len shape_bytes = 4 * len (wi_shape wi) /\
      quant_header wi = Ok quant_bytes /\
      blob = before ++ shape_bytes ++ quant_bytes ++ tobytes (wi_data wi) ++ rest.
Proof.
  intros Hnd Hnd' H pre owner lw post lpre role wi lpost -> Hlw.
  assert (Howner : ~ In owner (keys post)) by (eapply last_binding; exact Hnd).
  assert (Hrole : ~ In role (keys lpost)).
  { apply (last_binding lpre lpost role wi). rewrite <- Hlw.
    apply (Hnd' owner). apply in_or_app. right. now left. }
  rewrite store_loop_app in H. unfold written_before.
  destruct (store_loop pre ([], 0, [])) as [[[b0 t0] o0] | e];
    [ cbn [bind] in H | discriminate ].
  cbn [store_loop] in H.
  destruct (layer_loop lw (b0, t0, [])) as [[[b1 t1] lo] | e] eqn:El;
    [ cbn [bind] in H | discriminate ].
  rewrite Hlw in El.
  apply layer_loop_offsets in El
    as (before & t & o & sb & qb & rest & Hpre & Hoff & Hsb & Hqb & ->);
    [ | exact Hrole ].
  apply store_loop_grows in H as [[rest' ->] Hk].
  exists before, sb, qb, (rest ++ rest').
  split; [ exact (f_equal (fun c => '(b, _, _) <- c ;; Ok b) Hpre) | ].
  repeat split; try assumption.
  - unfold entry. rewrite Hk by assumption. rewrite dict_get_set_same. exact Hoff.
  - now apply pack_ints_length.
  - now rewrite <- !app_assoc.
Qed.

(** *** What is written, and where *)

Lemma dict_set_twice {V} (d : dict V) (k : string) (v v' : V) :
  dict_set (dict_set d k v) k v' = dict_set d k v'.
Proof.
  induction d as [ | [k0 v0] d IH]; simpl.
  - now rewrite String.eqb_refl.
  - destruct (String.eqb k0 k) eqn:E; simpl; rewrite E; [ reflexivity | ].
    now rewrite IH.
Qed.

Lemma put_twice (p : string) (c c' : content) (w : world) :
  put p c' (put p c w) = put p c' w.
Proof. unfold put. simpl. now rewrite dict_set_twice. Qed.

(** The two files of a model never have the same path. *)
Lemma paths_differ (output_path : string) :
  metadata_path output_path <> weights_path output_path.
Proof.
  unfold metadata_path, weights_path.
  induction (Os.splitext_root output_path) as [ | c r IH]; simpl.
  - discriminate.
  - intros [= H]. now apply IH.
Qed.

(** What [_save_model] prepares from a model that holds a packable
    store: the metadata, which is the model without [weights] and with
    the offsets the loops recorded under [weight_offsets], and the
    buffer of the loops as the blob. *)
Lemma build_files_of_store (model : dict value) (weights : store) :
  dict_get model "weights" = Some (Weights weights) ->
  all_packable weights ->
  exists blob total offsets,
    store_loop weights ([], 0, []) = Ok (blob, total, offsets) /\
    build_files model =
    Ok (dict_set (filter (fun kv => negb (String.eqb (fst kv) "weights")) model)
                 "weight_offsets" (Offsets offsets),
        blob).
Proof.
  intros Hm Hp.
  destruct (store_loop_succeeds weights Hp ([], 0, [])) as [[[blob total] offsets] H].
  exists blob, total, offsets. split; [ exact H | ].
  unfold build_files. rewrite Hm. cbn [bind]. rewrite H. reflexivity.
Qed.

(** [_save_model], step by step: every way it can end, with the world
    it leaves. *)
Lemma save_model_cases (self : converter) (model : dict value)
      (output_path : string) (w : world) :
  _save_model self model output_path w =
  if path_denied w (Os.dirname output_path) then (logged OSError w, Ok false)
  else
    match build_files model with
    | Raise e => (logged e w, Ok false)
    | Ok (metadata, blob) =>
        if path_denied w (metadata_path output_path)
        then (logged OSError w, Ok false)
        else if path_failing w (metadata_path output_path)
        then (logged OSError (put (metadata_path output_path) Incomplete w), Ok false)
        else if path_denied w (weights_path output_path)
        then (logged OSError (put (metadata_path output_path) (Text metadata) w),
              Ok false)
        else if path_failing w (weights_path output_path)
        then (logged OSError
                (put (weights_path output_path) Incomplete
                   (put (metadata_path output_path) (Text metadata) w)),
              Ok false)
        else (put (weights_path output_path) (Binary blob)
                (put (metadata_path output_path) (Text metadata) w),
              Ok true)
    end.
Proof.
  unfold _save_model, write_file.
  unfold try_except, io_bind, makedirs, lift, open_w, write_all, logger_error, io_ret.
  destruct (path_denied w (Os.dirname output_path)); [ reflexivity | ].
  destruct (build_files model) as [[metadata blob] | e]; [ | reflexivity ].
  destruct (path_denied w (metadata_path output_path)); [ reflexivity | ].
  change (path_failing (put (metadata_path output_path) Incomplete w)
                       (metadata_path output_path))
    with (path_failing w (metadata_path output_path)).
  destruct (path_failing w (metadata_path output_path)); [ reflexivity | ].
  rewrite put_twice.
  change (path_denied (put (metadata_path output_path) (Text metadata) w)
                      (weights_path output_path))
    with (path_denied w (weights_path output_path)).
  destruct (path_denied w (weights_path output_path)); [ reflexivity | ].
  change (path_failing
            (put (weights_path output_path) Incomplete
               (put (metadata_path output_path) (Text metadata) w))
            (weights_path output_path))
    with (path_failing w (weights_path output_path)).
  destruct (path_failing w (weights_path output_path)); [ reflexivity | ].
  rewrite put_twice. reflexivity.
Qed.

(** C6: for every weight store (a dict of dicts, with tensors
    [struct.pack] accepts), [_save_model] puts under [weight_offsets]
    in the metadata document, for each (owner, role) pair, the length
    of the buffer at the moment its loops reach that tensor; the blob
    it writes holds from that offset the tensor's shape (4 bytes per
    dimension), then its scale, zero point and bits when it is
    quantized, then its data; and when the files can be written the
    metadata file holds that document and the weight file that blob. *)
Theorem C6_offsets_point_at_headers (self : converter) (model : dict value)
        (weights : store) (output_path : string) (w : world) :
  dict_get model "weights" = Some (Weights weights) ->
  NoDup (keys weights) ->
  (forall o lw, In (o, lw) weights -> NoDup (keys lw)) ->
  all_packable weights ->
  exists metadata blob offsets,
    build_files model = Ok (metadata, blob) /\
    dict_get metadata "weight_offsets" = Some (Offsets offsets) /\
    (writable w output_path ->
     snd (_save_model self model output_path w) = Ok true /\
     dict_get (files (fst (_save_model self model output_path w)))
              (metadata_path output_path) = Some (Text metadata) /\
     dict_get (files (fst (_save_model self model output_path w)))
              (weights_path output_path) = Some (Binary blob)) /\
    forall pre owner lw post lpre role wi lpost,
      weights = pre ++ (owner, lw) :: post ->
      lw = lpre ++ (role, wi) :: lpost ->
      exists before shape_bytes quant_bytes rest,
        written_before pre lpre = Ok before /\
        entry offsets owner role = Some (len before) /\
        Struct.pack_ints (wi_shape wi) = Ok shape_bytes /\
        len shape_bytes = 4 * len (wi_shape wi) /\
        quant_header wi = Ok quant_bytes /\
        blob = before ++ shape_bytes ++ quant_bytes ++ tobytes (wi_data wi) ++ rest.
Proof.
  intros Hm Hnd Hnd' Hp.
  destruct (build_files_of_store model weights Hm Hp)
    as (blob & total & offsets & Hloop & Hbuild).
  eexists. exists blob, offsets. split; [ exact Hbuild | ].
  split; [ apply dict_get_set_same | ]. split.
  - intros (Hdir & Hmd & Hmf & Hwd & Hwf).
    rewrite save_model_cases, Hdir, Hbuild, Hmd, Hmf, Hwd, Hwf. cbn [fst snd put files].
    split; [ reflexivity | ]. split.
    + rewrite dict_get_set_other by apply paths_differ. apply dict_get_set_same.
    + apply dict_get_set_same.
  - now apply store_loop_offsets with total.
Qed.

(** *** Failing writes *)

(** C5 (amended): [_save_model] writes the metadata file first and the
    weight file second, in place.  If the directory cannot be made,
    the store cannot be serialized or the metadata file cannot be
    opened, no file changes.  If the metadata write fails after the
    file was opened, that file is left incomplete.  If the weight file
    cannot be opened, the new metadata file is complete on disk and
    the weight file is what it was; if its write fails after opening,
    the metadata file is complete and the weight file incomplete.  In
    every failure the function returns [False] and the cause goes to
    the log, not to the caller. *)
Theorem C5_save_outcomes (self : converter) (model : dict value)
        (output_path : string) (w : world) :
  let run := _save_model self model output_path w in
  let mp := metadata_path output_path in
  let wp := weights_path output_path in
  (path_denied w (Os.dirname output_path) = true ->
   run = (logged OSError w, Ok false)) /\
  (path_denied w (Os.dirname output_path) = false ->
   (forall e, build_files model = Raise e -> run = (logged e w, Ok false)) /\
   (forall metadata blob,
       build_files model = Ok (metadata, blob) ->
       (path_denied w mp = true -> run = (logged OSError w, Ok false)) /\
       (path_denied w mp = false -> path_failing w mp = true ->
        run = (logged OSError (put mp Incomplete w), Ok false)) /\
       (path_denied w mp = false -> path_failing w mp = false ->
        (path_denied w wp = true ->
         run = (logged OSError (put mp (Text metadata) w), Ok false) /\
         dict_get (files (fst run)) mp = Some (Text metadata) /\
         dict_get (files (fst run)) wp = dict_get (files w) wp) /\
        (path_denied w wp = false -> path_failing w wp = true ->
         run = (logged OSError (put wp Incomplete (put mp (Text metadata) w)),
                Ok false) /\
         dict_get (files (fst run)) mp = Some (Text metadata) /\
         dict_get (files (fst run)) wp = Some Incomplete) /\
        (path_denied w wp = false -> path_failing w wp = false ->
         run = (put wp (Binary blob) (put mp (Text metadata) w), Ok true))))).
Proof.
  cbv zeta. rewrite save_model_cases. split.
  - intros ->. reflexivity.
  - intros ->. split.
    + intros e ->. reflexivity.
    + intros metadata blob ->. split; [ intros ->; reflexivity | ].
      split; [ intros -> ->; reflexivity | ].
      intros -> ->. split; [ | split ].
      * intros ->. split; [ reflexivity | ]. cbn [fst logged put files]. split.
        -- apply dict_get_set_same.
        -- apply dict_get_set_other. intros E. now apply (paths_differ output_path).
      * intros -> ->. split; [ reflexivity | ]. cbn [fst logged put files]. split.
        -- rewrite dict_get_set_other by apply paths_differ. apply dict_get_set_same.
        -- apply dict_get_set_same.
      * intros -> ->. reflexivity.
Qed.

End Serialization.

Section SerializationExamples.
Import IEEE Np PyTorchConverter.

Lemma all_packable_example_store : all_packable example_store.
Proof.
  intros o lw r wi [[= _ <-] | []] [[= _ <-] | [[= _ <-] | []]];
    (split; [ repeat constructor; unfold int32; lia | ]).
  - unfold int32. simpl. lia.
  - exact I.
Qed.

Lemma C6_offsets_point_at_headers_witness :
  exists metadata blob offsets,
    build_files [("format_version"%string, Json "1.0");
                 ("weights"%string, Weights example_store)] = Ok (metadata, blob) /\
    dict_get metadata "weight_offsets" = Some (Offsets offsets) /\
    (writable (mk_world [] [] [] []) "out.tinyai" ->
     snd (_save_model (mk_converter 4 false None None true false)
            [("format_version"%string, Json "1.0");
             ("weights"%string, Weights example_store)]
            "out.tinyai" (mk_world [] [] [] [])) = Ok true /\
     dict_get (files (fst (_save_model (mk_converter 4 false None None true false)
                             [("format_version"%string, Json "1.0");
                              ("weights"%string, Weights example_store)]
                             "out.tinyai" (mk_world [] [] [] []))))
              (metadata_path "out.tinyai") = Some (Text metadata) /\
     dict_get (files (fst (_save_model (mk_converter 4 false None None true false)
                             [("format_version"%string, Json "1.0");
                              ("weights"%string, Weights example_store)]
                             "out.tinyai" (mk_world [] [] [] []))))
              (weights_path "out.tinyai") = Some (Binary blob)) /\
    forall pre owner lw post lpre role wi lpost,
      example_store = pre ++ (owner, lw) :: post ->
      lw = lpre ++ (role, wi) :: lpost ->
      exists before shape_bytes quant_bytes rest,
        written_before pre lpre = Ok before /\
        entry offsets owner role = Some (len before) /\
        Struct.pack_ints (wi_shape wi) = Ok shape_bytes /\
        len shape_bytes = 4 * len (wi_shape wi) /\
        quant_header wi = Ok quant_bytes /\
        blob = before ++ shape_bytes ++ quant_bytes ++ tobytes (wi_data wi) ++ rest.
Proof.
  apply (C6_offsets_point_at_headers (mk_converter 4 false None None true false)
           [("format_version"%string, Json "1.0");
            ("weights"%string, Weights example_store)]
           example_store "out.tinyai" (mk_world [] [] [] [])).
  - reflexivity.
  - repeat constructor; simpl; intuition discriminate.
  - intros o lw [[= _ <-] | []]. repeat constructor; simpl; intuition discriminate.
  - exact all_packable_example_store.
Defined.

(** C5, as the spec states it, fails: when the weight file cannot be
    opened, [_save_model] has already written the new metadata file,
    which stays on disk beside the weight file of an earlier run, and
    the caller gets [False] with the cause in the log only. *)
Lemma C5_counterexample :
  let w := mk_world [("out.bin"%string, Binary [1; 2; 3])] ["out.bin"%string] [] [] in
  let model := [("format_version"%string, Json "1.0");
                ("weights"%string, Weights example_store)] in
  _save_model (mk_converter 4 false None None true false) model "out.tinyai" w =
  (mk_world [("out.bin"%string, Binary [1; 2; 3]);
             ("out.json"%string,
              Text [("format_version"%string, Json "1.0");
                    ("weight_offsets"%string,
                     Offsets [("fc"%string,
                               [("weight"%string, 0); ("bias"%string, 17)])])])]
            ["out.bin"%string] [] [OSError],
   Ok false) /\
  files w <> [("out.bin"%string, Binary [1; 2; 3]);
              ("out.json"%string,
               Text [("format_version"%string, Json "1.0");
                     ("weight_offsets"%string,
                      Offsets [("fc"%string,
                                [("weight"%string, 0); ("bias"%string, 17)])])])].
Proof. split; [ vm_compute; reflexivity | discriminate ]. Qed.

Lemma C5_save_outcomes_witness :
  let w := mk_world [("out.bin"%string, Binary [1; 2; 3])] ["out.bin"%string] [] [] in
  let model := [("format_version"%string, Json "1.0");
                ("weights"%string, Weights example_store)] in
  let metadata := [("format_version"%string, Json "1.0");
                   ("weight_offsets"%string,
                    Offsets [("fc"%string,
                              [("weight"%string, 0); ("bias"%string, 17)])])] in
  let run := _save_model (mk_converter 4 false None None true false) model
                         "out.tinyai" w in
  run = (logged OSError (put (metadata_path "out.tinyai") (Text metadata) w),
         Ok false) /\
  dict_get (files (fst run)) (metadata_path "out.tinyai") = Some (Text metadata) /\
  dict_get (files (fst run)) (weights_path "out.tinyai") =
  dict_get (files w) (weights_path "out.tinyai").
Proof.
  cbv zeta.
  destruct (C5_save_outcomes (mk_converter 4 false None None true false)
              [("format_version"%string, Json "1.0");
               ("weights"%string, Weights example_store)]
              "out.tinyai"
              (mk_world [("out.bin"%string, Binary [1; 2; 3])]
                        ["out.bin"%string] [] [])) as [_ H].
  destruct (H eq_refl) as [_ H1].
  destruct (H1 [("format_version"%string, Json "1.0");
                ("weight_offsets"%string,
                 Offsets [("fc"%string,
                           [("weight"%string, 0); ("bias"%string, 17)])])]
               [2; 0; 0; 0; 0; 0; 128; 63; 0; 0; 0; 0; 4; 0; 0; 0; 255;
                1; 0; 0; 0; 0; 0; 128; 63] eq_refl) as (_ & _ & H2).
  destruct (H2 eq_refl eq_refl) as (H3 & _).
  exact (H3 eq_refl).
Defined.

End SerializationExamples.

(* ================================================================== *)
(** ** More on quantization, pruning and clustering                    *)
(* ================================================================== *)

Section Widths.
Import IEEE Np PyTorchConverter.

Lemma len_map {A B} (f : A -> B) (l : list A) : len (map f l) = len l.
Proof. unfold len. now rewrite length_map. Qed.

Lemma len_tobytes (a : ndarray) :
  len (tobytes a) = itemsize (dtype_of a) * len (buffer a).
Proof.
  unfold tobytes, len. rewrite length_flat_map_le_bytes.
  destruct (dtype_of a); simpl itemsize; lia.
Qed.

Lemma to_uint8_byte (x : spec_float) : 0 <= to_uint8 x < 256.
Proof.
  unfold to_uint8. destruct (trunc x) as [n | e]; [ | lia ].
  destruct (_ && _); [ | lia ]. apply Z.mod_pos_bound. lia.
Qed.

(** The zero point [_quantize_weights] returns is 0 at every width. *)
Lemma quantize_zero_point (weights : ndarray) (bits : Z) q scale zero_point :
  _quantize_weights weights bits = Ok (Some (q, scale, zero_point)) ->
  zero_point = 0.
Proof.
  unfold _quantize_weights.
  destruct (bits =? 32); [ now intros [= _ _ <-] | ].
  destruct (bits =? 16); [ now intros [= _ _ <-] | ].
  destruct (max weights); [ | discriminate ].
  destruct (min weights); [ | discriminate ].
  cbn [bind].
  destruct (bits =? 8); [ now intros [= _ _ <-] | ].
  destruct (bits =? 4); [ | discriminate ].
  destruct (size weights mod 2 =? 0).
  - destruct (for_ _ _ _); [ simpl | discriminate ]. now intros [= _ _ <-].
  - destruct (for_ _ _ _); [ simpl | discriminate ].
    destruct (if size weights >? 1 then _ else _); [ simpl | discriminate ].
    now intros [= _ _ <-].
Qed.

(** At 16 and 8 bits the payload has the shape of the tensor and two
    bytes, respectively one byte, per element; the 16-bit branch keeps
    [scale = 1.0]; the 8-bit branch needs a non-empty tensor, an empty
    one raises in [np.max]. *)
Theorem quantize_16_and_8_payload (weights : ndarray) :
  len (buffer weights) = size weights ->
  (exists q,
      _quantize_weights weights 16 = Ok (Some (q, PyFloat (py_float 1), 0)) /\
      dtype_of q = float16 /\ shape q = shape weights /\
      len (tobytes q) = 2 * size weights) /\
  (buffer weights <> [] ->
   exists q scale,
     _quantize_weights weights 8 = Ok (Some (q, scale, 0)) /\
     dtype_of q = uint8 /\ shape q = shape weights /\
     len (tobytes q) = size weights /\
     Forall (fun b => 0 <= b < 256) (buffer q)) /\
  (buffer weights = [] ->
   _quantize_weights weights 8 = Raise ValueError /\
   _quantize_weights weights 4 = Raise ValueError).
Proof.
  intros Hlen. split; [ | split ].
  - eexists. split; [ reflexivity | ]. repeat split.
    rewrite len_tobytes. cbn [dtype_of astype_float16 buffer itemsize].
    rewrite len_map. lia.
  - intros Hne. unfold _quantize_weights.
    change (8 =? 32) with false. change (8 =? 16) with false.
    change (8 =? 8) with true. cbv iota.
    unfold max, min, reduce. destruct (buffer weights) as [ | w ws] eqn:Eb; [ congruence | ].
    cbn [bind]. do 2 eexists. split; [ reflexivity | ]. repeat split.
    + rewrite len_tobytes. cbn [dtype_of astype_uint8 buffer itemsize].
      unfold round, add_int, div_scalar, map32. cbn [buffer].
      rewrite !len_map, Eb. lia.
    + cbn [astype_uint8 buffer]. apply Forall_forall. intros b Hb.
      apply in_map_iff in Hb as (x & <- & _). apply to_uint8_byte.
  - intros He. unfold _quantize_weights, max, min, reduce. rewrite He.
    split; reflexivity.
Qed.

Lemma quantize_16_and_8_payload_witness :
  exists q scale,
    _quantize_weights example_weights 8 = Ok (Some (q, scale, 0)) /\
    dtype_of q = uint8 /\ shape q = shape example_weights /\
    len (tobytes q) = size example_weights /\
    Forall (fun b => 0 <= b < 256) (buffer q).
Proof.
  apply (proj1 (proj2 (quantize_16_and_8_payload example_weights eq_refl))).
  rewrite example_weights_items. discriminate.
Defined.

End Widths.

Section Float32Words.
Import IEEE Np.

Lemma digits2_pos_bounds (m : positive) :
  2 ^ (Z.pos (digits2_pos m) - 1) <= Z.pos m < 2 ^ Z.pos (digits2_pos m).
Proof.
  induction m as [m IH | m IH | ]; cbn [digits2_pos].
  - rewrite Pos2Z.inj_succ. replace (Z.succ (Z.pos (digits2_pos m)) - 1)
      with (Z.succ (Z.pos (digits2_pos m) - 1)) by lia.
    rewrite !Z.pow_succ_r by lia. lia.
  - rewrite Pos2Z.inj_succ. replace (Z.succ (Z.pos (digits2_pos m)) - 1)
      with (Z.succ (Z.pos (digits2_pos m) - 1)) by lia.
    rewrite !Z.pow_succ_r by lia. lia.
  - simpl. lia.
Qed.

Lemma digits2_pos_le (m : positive) (n : Z) :
  0 <= n -> Z.pos m < 2 ^ n -> Z.pos (digits2_pos m) <= n.
Proof.
  intros Hn Hm. destruct (digits2_pos_bounds m) as [Hlo _].
  destruct (Z.le_gt_cases (Z.pos (digits2_pos m)) n) as [ | Hgt]; [ assumption | ].
  assert (2 ^ n <= 2 ^ (Z.pos (digits2_pos m) - 1)) by (apply Z.pow_le_mono_r; lia).
  lia.
Qed.

Lemma digits2_pos_ge (m : positive) (n : Z) :
  0 <= n -> 2 ^ n <= Z.pos m -> n + 1 <= Z.pos (digits2_pos m).
Proof.
  intros Hn Hm. destruct (digits2_pos_bounds m) as [_ Hhi].
  destruct (Z.le_gt_cases (n + 1) (Z.pos (digits2_pos m))) as [ | Hlt]; [ assumption | ].
  assert (2 ^ Z.pos (digits2_pos m) <= 2 ^ n) by (apply Z.pow_le_mono_r; lia).
  lia.
Qed.

(** The fields of a 32-bit word. *)
Lemma word_fields (w : Z) :
  0 <= w < 2 ^ 32 ->
  let frac := w mod 2 ^ 23 in
  let ex := (w / 2 ^ 23) mod 2 ^ 8 in
  let s := w / 2 ^ 31 in
  0 <= frac < 2 ^ 23 /\ 0 <= ex < 2 ^ 8 /\ (s = 0 \/ s = 1) /\
  w = s * 2 ^ 31 + ex * 2 ^ 23 + frac.
Proof.
  intros Hw. cbv zeta.
  assert (H23 := Z.mod_pos_bound w (2 ^ 23) ltac:(lia)).
  assert (H8 := Z.mod_pos_bound (w / 2 ^ 23) (2 ^ 8) ltac:(lia)).
  assert (D1 := Z.div_mod w (2 ^ 23) ltac:(lia)).
  assert (D2 := Z.div_mod (w / 2 ^ 23) (2 ^ 8) ltac:(lia)).
  assert (D3 : w / 2 ^ 23 / 2 ^ 8 = w / 2 ^ 31)
    by (rewrite Z.div_div by lia; reflexivity).
  assert (Hs : 0 <= w / 2 ^ 31 < 2).
  { split; [ apply Z.div_pos; lia | apply Z.div_lt_upper_bound; lia ]. }
  rewrite D3 in D2. repeat split; try lia.
Qed.

(** A float32 word decodes to a value of the format. *)
Lemma f32_bounded (w : Z) (s : bool) (m : positive) (e : Z) :
  f32 w = S754_finite s m e -> bounded 24 128 m e = true.
Proof.
  unfold f32, decode.
  change (prec binary32) with 24. change (emax binary32) with 128.
  change (bias binary32) with 127. cbn [mw ew binary32].
  assert (H23 := Z.mod_pos_bound w (2 ^ 23) ltac:(lia)).
  assert (H8 := Z.mod_pos_bound (w / 2 ^ 23) (2 ^ 8) ltac:(lia)).
  set (frac := w mod 2 ^ 23) in *. set (ex := (w / 2 ^ 23) mod 2 ^ 8) in *.
  unfold bounded, canonical_mantissa, fexp, SpecFloat.emin.
  destruct (Z.eqb_spec ex 0) as [E0 | E0].
  - destruct frac as [ | p | p] eqn:Ef; try discriminate. intros [= _ <- <-].
    assert (Hd := digits2_pos_le p 23 ltac:(lia) ltac:(lia)).
    apply andb_true_intro. split; [ apply Z.eqb_eq | apply Z.leb_le ]; lia.
  - destruct (Z.eqb_spec ex (2 ^ 8 - 1)) as [E1 | E1].
    + destruct (frac =? 0); discriminate.
    + destruct (frac + 2 ^ 23) as [ | p | p] eqn:Ef; try discriminate.
      intros [= _ <- <-].
      assert (Hd1 := digits2_pos_le p 24 ltac:(lia) ltac:(lia)).
      assert (Hd2 := digits2_pos_ge p 23 ltac:(lia) ltac:(lia)).
      apply andb_true_intro. split; [ apply Z.eqb_eq | apply Z.leb_le ]; lia.
Qed.

(** Encoding the value of a word gives the word back, NaNs apart. *)
Lemma w32_f32 (w : Z) :
  0 <= w < 2 ^ 32 -> is_nan (f32 w) = false -> w32 (f32 w) = w.
Proof.
  intros Hw. destruct (word_fields w Hw) as (Hf & He & Hs & Hsum).
  unfold w32, f32, decode, encode, sign_bit.
  change (prec binary32) with 24. change (emax binary32) with 128.
  change (bias binary32) with 127. cbn [mw ew binary32].
  set (frac := w mod 2 ^ 23) in *. set (ex := (w / 2 ^ 23) mod 2 ^ 8) in *.
  replace (2 ^ (23 + 8)) with (2 ^ 31) by reflexivity.
  assert (Hodd : (if Z.odd (w / 2 ^ 31) then 2 ^ 31 else 0) = w / 2 ^ 31 * 2 ^ 31)
    by (destruct Hs as [-> | ->]; reflexivity).
  destruct (Z.eqb_spec ex 0) as [E0 | E0].
  - destruct frac as [ | p | p] eqn:Ef; intros _; try lia.
    destruct (Z.ltb_spec (Z.pos p) (2 ^ 23)); lia.
  - destruct (Z.eqb_spec ex (2 ^ 8 - 1)) as [E1 | E1].
    + destruct (Z.eqb_spec frac 0); [ intros _; lia | discriminate ].
    + destruct (frac + 2 ^ 23) as [ | p | p] eqn:Ef; intros _; try lia.
      destruct (Z.ltb_spec (Z.pos p) (2 ^ 23)); lia.
Qed.

(** Multiplying a value of the format by 1.0 changes nothing, and
    multiplying a finite one by 0.0 gives a zero. *)
Lemma mul_one (x : spec_float) :
  valid_binary 24 128 x = true -> mul binary32 x (of_Z binary32 1) = x.
Proof.
  change (of_Z binary32 1) with (S754_finite false 8388608 (-23)).
  unfold mul. change (prec binary32) with 24. change (emax binary32) with 128.
  intros Hb. destruct x as [s | s | | s m e]; try (destruct s; reflexivity);
    try reflexivity.
  simpl in Hb. apply andb_prop in Hb as [Hc Hle].
  unfold canonical_mantissa in Hc. apply Z.eqb_eq in Hc. apply Z.leb_le in Hle.
  unfold SFmul. rewrite xorb_false_r. rewrite Pos.mul_comm.
  unfold binary_round_aux, shr_fexp.
  change (Z.pos (8388608 * m)) with (Z.pos (Pos.iter xO m 23)).
  cbn [Pos.iter Zdigits2 digits2_pos shr_record_of_loc].
  replace (Z.pos
             (Pos.succ (Pos.succ (Pos.succ (Pos.succ (Pos.succ (Pos.succ (Pos.succ
             (Pos.succ (Pos.succ (Pos.succ (Pos.succ (Pos.succ (Pos.succ (Pos.succ
             (Pos.succ (Pos.succ (Pos.succ (Pos.succ (Pos.succ (Pos.succ (Pos.succ
             (Pos.succ (Pos.succ (digits2_pos m)))))))))))))))))))))))) + (e + -23))
    with (Z.pos (digits2_pos m) + e) by lia.
  rewrite Hc. replace (e - (e + -23)) with 23 by lia.
  cbn [shr iter_pos shr_1 orb shr_m loc_of_shr_record round_nearest_even].
  replace (e + -23 + 23) with e by lia.
  cbn [Zdigits2]. rewrite Hc, Z.sub_diag. cbn [shr shr_m].
  destruct (Z.leb_spec e (128 - 24)); [ reflexivity | lia ].
Qed.

End Float32Words.

Section Pruning.
Import IEEE Np PyTorchConverter.

Lemma f32_clear_sign (w : Z) :
  0 <= w < 2 ^ 32 -> f32 (w mod 2 ^ 31) = SFabs (f32 w).
Proof.
  intros Hw. destruct (word_fields w Hw) as (Hf & He & Hs & Hsum).
  assert (Hw' : 0 <= w mod 2 ^ 31 < 2 ^ 32).
  { pose proof (Z.mod_pos_bound w (2 ^ 31) ltac:(lia)). lia. }
  destruct (word_fields _ Hw') as (Hf' & He' & Hs' & Hsum').
  assert (Hm : w mod 2 ^ 31 = (w / 2 ^ 23) mod 2 ^ 8 * 2 ^ 23 + w mod 2 ^ 23).
  { symmetry. apply Z.mod_unique with (w / 2 ^ 31); lia. }
  assert (E1 : (w mod 2 ^ 31) mod 2 ^ 23 = w mod 2 ^ 23) by lia.
  assert (E2 : ((w mod 2 ^ 31) / 2 ^ 23) mod 2 ^ 8 = (w / 2 ^ 23) mod 2 ^ 8) by lia.
  assert (E3 : w mod 2 ^ 31 / 2 ^ 31 = 0) by lia.
  unfold f32, decode. cbn [mw ew binary32].
  replace (2 ^ (23 + 8)) with (2 ^ 31) by reflexivity.
  rewrite E1, E2, E3. cbn [Z.odd].
  destruct ((w / 2 ^ 23) mod 2 ^ 8 =? 0).
  - destruct (w mod 2 ^ 23); reflexivity.
  - destruct (_ =? 2 ^ 8 - 1).
    + destruct (w mod 2 ^ 23 =? 0); reflexivity.
    + destruct (w mod 2 ^ 23 + 2 ^ 23); reflexivity.
Qed.

(** [np.abs] on an item gives the magnitude of its value. *)
Lemma f32_abs_item (w : Z) :
  0 <= w < 2 ^ 32 -> f32 (w32 (SFabs (f32 w))) = SFabs (f32 w).
Proof.
  intros Hw. rewrite <- f32_clear_sign by assumption.
  destruct (is_nan (f32 (w mod 2 ^ 31))) eqn:En.
  - destruct (f32 (w mod 2 ^ 31)); try discriminate. reflexivity.
  - rewrite w32_f32; [ reflexivity | | assumption ].
    pose proof (Z.mod_pos_bound w (2 ^ 31) ltac:(lia)). lia.
Qed.

Lemma map_combine_map {A B C} (f : A * B -> C) (g : A -> B) (l : list A) :
  map f (combine l (map g l)) = map (fun a => f (a, g a)) l.
Proof. induction l as [ | a l IH]; simpl; congruence. Qed.

(** Pruning never fails and keeps the shape: every item whose
    magnitude is above the threshold is kept bit for bit, and every
    other finite item becomes a zero (of its sign). *)
Theorem prune_keeps_large_zeroes_small (weights : ndarray) (threshold : spec_float) :
  wf weights -> dtype_of weights = float32 ->
  exists pruned,
    _prune_weights weights threshold = Ok pruned /\
    dtype_of pruned = float32 /\ shape pruned = shape weights /\
    Forall2 (fun w w' =>
               (above threshold w = true -> w' = w) /\
               (above threshold w = false -> finite (f32 w) = true ->
                w' = 0 \/ w' = 2 ^ 31))
            (buffer weights) (buffer pruned).
Proof.
  intros (_ & _ & Hitems) Hd. rewrite Hd in Hitems. unfold _prune_weights.
  eexists. split; [ reflexivity | ]. repeat split.
  unfold mul_mask, greater, abs, map32. cbn [buffer].
  rewrite map_map, map_combine_map.
  induction Hitems as [ | w ws Hw _ IH]; cbn [map]; constructor; [ | exact IH ].
  rewrite f32_abs_item by exact Hw. fold (above threshold w).
  destruct (above threshold w) eqn:Ea; (split; [ | ]); try discriminate.
  - intros _. rewrite mul_one.
    + apply w32_f32; [ exact Hw | ].
      unfold above in Ea. destruct (f32 w); try reflexivity.
      simpl in Ea. unfold SFltb in Ea.
      now destruct (cast binary32 threshold).
    + destruct (f32 w) eqn:Ef; try reflexivity. simpl.
      now apply f32_bounded with w s.
  - intros _ Hfin. change (of_Z binary32 0) with (S754_zero false).
    destruct (f32 w) as [s | s | | s m e]; try discriminate;
      destruct s; simpl; auto.
Qed.

Lemma prune_keeps_large_zeroes_small_witness :
  exists pruned,
    _prune_weights example_weights (div binary64 (py_float 3) (py_float 4)) = Ok pruned /\
    dtype_of pruned = float32 /\ shape pruned = shape example_weights /\
    Forall2 (fun w w' =>
               (above (div binary64 (py_float 3) (py_float 4)) w = true -> w' = w) /\
               (above (div binary64 (py_float 3) (py_float 4)) w = false ->
                finite (f32 w) = true -> w' = 0 \/ w' = 2 ^ 31))
            (buffer example_weights) (buffer pruned).
Proof.
  exact (prune_keeps_large_zeroes_small example_weights
           (div binary64 (py_float 3) (py_float 4)) wf_example_weights eq_refl).
Defined.

(** *** Clustering with at least as many clusters as elements *)

Lemma length_insert_sorted (x : Z) (l : list Z) :
  length (insert_sorted x l) = S (length l).
Proof.
  induction l as [ | y l IH]; simpl; [ reflexivity | ].
  destruct (fle _ _); simpl; auto.
Qed.

Lemma length_sort (l : list Z) : length (sort l) = length l.
Proof.
  induction l as [ | x l IH]; simpl; [ reflexivity | ].
  now rewrite length_insert_sorted, IH.
Qed.

Lemma length_dedup_from (prev : Z) (l : list Z) :
  (length (dedup_from prev l) <= length l)%nat.
Proof.
  revert prev. induction l as [ | y l IH]; intros prev; simpl; [ lia | ].
  destruct (same _ _); simpl; specialize (IH y); lia.
Qed.

Lemma length_unique (a : ndarray) : len (unique a) <= len (buffer a).
Proof.
  unfold unique, dedup, len. rewrite <- (length_sort (buffer a)).
  destruct (sort (buffer a)) as [ | x l]; simpl; [ lia | ].
  pose proof (length_dedup_from x l). lia.
Qed.

(** With at least as many clusters as elements the tensor comes back
    unchanged, whatever the clustering library would do; so does every
    empty tensor when the cluster count is not negative. *)
Theorem cluster_enough_clusters (KMeans_fit : Sklearn.KMeans) (weights : ndarray)
        (num_clusters : Z) :
  len (buffer weights) <= num_clusters ->
  _apply_weight_clustering KMeans_fit weights num_clusters = Ok weights.
Proof.
  intros H. unfold _apply_weight_clustering.
  pose proof (length_unique (flatten weights)) as Hu. cbn [flatten buffer] in Hu.
  destruct (Z.leb_spec (len (unique (flatten weights))) num_clusters);
    [ reflexivity | lia ].
Qed.

Lemma cluster_enough_clusters_witness :
  _apply_weight_clustering no_kmeans example_weights 5 = Ok example_weights.
Proof.
  apply (cluster_enough_clusters no_kmeans example_weights 5).
  rewrite example_weights_items. discriminate.
Defined.

End Pruning.

Section StoreShape.
Import IEEE Np PyTorchConverter.
Variable KMeans_fit : Sklearn.KMeans.

Lemma filed_as_configured_loop (self : converter) (params : list parameter) :
  forall s s', filed_as_configured self s ->
               process_loop KMeans_fit self params s = Ok s' ->
               filed_as_configured self s'.
Proof.
  induction params as [ | p ps IH]; intros s s' Hs H; simpl in H.
  - now injection H as <-.
  - destruct (negb (requires_grad p) && negb (verbose self)); [ now apply IH with s | ].
    destruct (process_parameter KMeans_fit self p s) as [s1 | e] eqn:Ep;
      [ simpl in H | discriminate ].
    apply IH with s1; [ | exact H ].
    apply process_parameter_filed in Ep as (wd & wi & Hwi & Hentry).
    intros o r wi' He. rewrite Hentry in He.
    destruct (String.eqb_spec o (fst (param_key p))) as [Eo | ];
      [ | now apply (Hs o r wi') ].
    destruct (String.eqb_spec r (snd (param_key p))) as [-> | ];
      [ | now apply (Hs o r wi') ].
    simpl in He. injection He as <-.
    destruct (quantized_role _).
    + destruct Hwi as (q & sc & zp & Hquant & ->). simpl.
      apply quantize_zero_point in Hquant as ->. now exists sc.
    + now subst wi.
Qed.

(** Every store [_process_weights] returns files each tensor as its
    role asks: under a role that names a weight or a bias the tensor is
    quantized, with zero point 0, at the configured width (in mixed
    precision: at 8 bits unless the role names a weight); under any
    other role it is stored raw. *)
Theorem process_weights_filed_as_configured (self : converter)
        (params : list parameter) (s : store) :
  _process_weights KMeans_fit self params = Ok s -> filed_as_configured self s.
Proof.
  intros H. apply (filed_as_configured_loop self params [] s); [ | exact H ].
  intros o r wi He. discriminate He.
Qed.

End StoreShape.

Section StoreShapeExamples.
Import IEEE Np PyTorchConverter.

Lemma process_weights_filed_as_configured_witness :
  filed_as_configured (mk_converter 32 false None None true true)
    [("fc"%string,
      [("bias"%string,
        mk_weight_info (tensor [(1, 1)]) (Some (PyFloat (py_float 1), 0, 32)) [1])])].
Proof.
  apply (process_weights_filed_as_configured no_kmeans
           (mk_converter 32 false None None true true)
           [mk_parameter "fc.bias" false (tensor [(1, 1)])]).
  reflexivity.
Defined.

End StoreShapeExamples.

Section Blob.
Import IEEE Np PyTorchConverter.

Lemma len_app {A} (l1 l2 : list A) : len (l1 ++ l2) = len l1 + len l2.
Proof. unfold len. rewrite length_app. lia. Qed.

Lemma pack_i_length (v : Z) (b : list Z) : Struct.pack_i v = Ok b -> len b = 4.
Proof.
  unfold Struct.pack_i. destruct (_ && _); [ | discriminate ]. now intros [= <-].
Qed.

Lemma pack_f_length (s : scalar) (b : list Z) : Struct.pack_f s = Ok b -> len b = 4.
Proof.
  unfold Struct.pack_f. now intros [= <-].
Qed.

Lemma quant_header_length (wi : weight_info) (b : list Z) :
  quant_header wi = Ok b ->
  len b = match wi_quant wi with Some _ => 12 | None => 0 end.
Proof.
  unfold quant_header. destruct (wi_quant wi) as [[[sc zp] bits] | ].
  - destruct (Struct.pack_f sc) as [sb | ] eqn:Es; [ simpl | discriminate ].
    destruct (Struct.pack_i zp) as [zb | ] eqn:Ez; [ simpl | discriminate ].
    destruct (Struct.pack_i bits) as [bb | ] eqn:Eb; [ simpl | discriminate ].
    intros [= <-]. rewrite !len_app.
    rewrite (pack_f_length _ _ Es), (pack_i_length _ _ Ez), (pack_i_length _ _ Eb).
    reflexivity.
  - now intros [= <-].
Qed.

Lemma sum_layer_cons (f : weight_info -> Z) (r : string) (wi : weight_info)
      (lw : dict weight_info) :
  sum_layer f ((r, wi) :: lw) = f wi + sum_layer f lw.
Proof. reflexivity. Qed.

Lemma sum_store_cons (f : weight_info -> Z) (o : string) (lw : dict weight_info)
      (s : store) :
  sum_store f ((o, lw) :: s) = sum_layer f lw + sum_store f s.
Proof. reflexivity. Qed.

Lemma layer_loop_sizes (lw : dict weight_info) :
  forall wd tot offs wd' tot' offs',
    layer_loop lw (wd, tot, offs) = Ok (wd', tot', offs') ->
    tot' = tot + sum_layer payload_size lw /\
    len wd' = len wd + sum_layer header_size lw + sum_layer payload_size lw.
Proof.
  induction lw as [ | [role wi] lw IH]; intros wd tot offs wd' tot' offs' H; simpl in H.
  - injection H as <- <- <-. simpl. lia.
  - rewrite append_entry_spec in H.
    destruct (Struct.pack_ints (wi_shape wi)) as [sb | e] eqn:Es;
      [ simpl in H | discriminate ].
    destruct (quant_header wi) as [qb | e] eqn:Eq; [ simpl in H | discriminate ].
    apply IH in H as [-> ->]. rewrite !len_app.
    rewrite (pack_ints_length _ _ Es), (quant_header_length _ _ Eq).
    rewrite !sum_layer_cons. unfold header_size, payload_size. lia.
Qed.

Lemma store_loop_sizes (weights : store) :
  forall wd tot offs wd' tot' offs',
    store_loop weights (wd, tot, offs) = Ok (wd', tot', offs') ->
    tot' = tot + sum_store payload_size weights /\
    len wd' = len wd + sum_store header_size weights + sum_store payload_size weights.
Proof.
  induction weights as [ | [owner lw] ws IH]; intros wd tot offs wd' tot' offs' H;
    simpl in H.
  - injection H as <- <- <-. simpl. lia.
  - destruct (layer_loop lw (wd, tot, [])) as [[[wd1 tot1] lo] | e] eqn:El;
      [ simpl in H | discriminate ].
    apply layer_loop_sizes in El as [-> El]. apply IH in H as [-> ->].
    rewrite El, !sum_store_cons. lia.
Qed.

(** The blob is as long as the headers and the data of all tensors
    together: 4 bytes per dimension, 12 more for a quantized tensor,
    then the data; and the size [_save_model] reports is the data
    alone. *)
Theorem blob_length (weights : store) :
  all_packable weights ->
  exists blob total offsets,
    store_loop weights ([], 0, []) = Ok (blob, total, offsets) /\
    total = sum_store payload_size weights /\
    len blob = sum_store header_size weights + sum_store payload_size weights.
Proof.
  intros Hp.
  destruct (store_loop_succeeds weights Hp ([], 0, [])) as [[[blob total] offsets] H].
  exists blob, total, offsets. split; [ exact H | ].
  apply store_loop_sizes in H as [-> ->]. split; reflexivity.
Qed.

(** *** The offset index and the metadata document *)

Lemma dict_set_fresh {V} (d : dict V) (k : string) (v : V) :
  ~ In k (keys d) -> dict_set d k v = d ++ [(k, v)].
Proof.
  induction d as [ | [k' v'] d IH]; simpl; intros H; [ reflexivity | ].
  destruct (String.eqb_spec k' k); [ tauto | ]. rewrite IH by tauto. reflexivity.
Qed.

Lemma layer_loop_keys (lw : dict weight_info) :
  forall wd tot offs wd' tot' offs',
    layer_loop lw (wd, tot, offs) = Ok (wd', tot', offs') ->
    NoDup (keys offs ++ keys lw) ->
    keys offs' = keys offs ++ keys lw.
Proof.
  induction lw as [ | [role wi] lw IH]; intros wd tot offs wd' tot' offs' H Hnd;
    simpl in H.
  - injection H as <- <- <-. simpl. now rewrite app_nil_r.
  - destruct (append_entry wd wi) as [[wd1 n] | e]; [ simpl in H | discriminate ].
    simpl in Hnd.
    assert (Hfresh : ~ In role (keys offs)).
    { intros Hin. apply NoDup_remove_2 in Hnd. apply Hnd. apply in_or_app. now left. }
    rewrite dict_set_fresh in H by assumption.
    apply IH in H.
    + rewrite H. unfold keys. rewrite map_app, <- app_assoc. reflexivity.
    + unfold keys in *. rewrite map_app, <- app_assoc. exact Hnd.
Qed.

Lemma store_loop_keys (weights : store) :
  forall wd tot offs wd' tot' offs',
    store_loop weights (wd, tot, offs) = Ok (wd', tot', offs') ->
    NoDup (keys offs ++ keys weights) ->
    (forall o lw, In (o, lw) weights -> NoDup (keys lw)) ->
    keys offs' = keys offs ++ keys weights /\
    forall o lw, In (o, lw) weights ->
                 exists lo, dict_get offs' o = Some lo /\ keys lo = keys lw.
Proof.
  induction weights as [ | [owner lw] ws IH];
    intros wd tot offs wd' tot' offs' H Hnd Hnd'; simpl in H.
  - injection H as <- <- <-. simpl. rewrite app_nil_r. split; [ reflexivity | ].
    intros o lw [].
  - destruct (layer_loop lw (wd, tot, [])) as [[[wd1 tot1] lo] | e] eqn:El;
      [ simpl in H | discriminate ].
    apply layer_loop_keys in El; [ | apply (Hnd' owner); now left ].
    simpl in El, Hnd.
    assert (Hfresh : ~ In owner (keys offs)).
    { intros Hin. apply NoDup_remove_2 in Hnd. apply Hnd. apply in_or_app. now left. }
    assert (Hlast : ~ In owner (keys ws)).
    { intros Hin. apply NoDup_remove_2 in Hnd. apply Hnd. apply in_or_app. now right. }
    rewrite dict_set_fresh in H by assumption.
    pose proof H as Hgrow. apply store_loop_grows in Hgrow as [_ Hk].
    apply IH in H as [Hkeys Hin].
    + split.
      * rewrite Hkeys. unfold keys. rewrite map_app, <- app_assoc. reflexivity.
      * intros o l [[= <- <-] | Hl]; [ | now apply Hin ].
        exists lo. split; [ | exact El ].
        rewrite Hk by assumption.
        rewrite <- (dict_set_fresh offs owner lo Hfresh). apply dict_get_set_same.
    + unfold keys in *. rewrite map_app, <- app_assoc. exact Hnd.
    + intros o l Hl. apply (Hnd' o). now right.
Qed.

Lemma dict_get_filter_key {V} (d : dict V) (drop k : string) :
  dict_get (filter (fun kv => negb (String.eqb (fst kv) drop)) d) k =
  if String.eqb k drop then None else dict_get d k.
Proof.
  induction d as [ | [k' v] d IH]; simpl.
  - now destruct (String.eqb k drop).
  - destruct (String.eqb_spec k' drop) as [E | E]; simpl.
    + rewrite IH. destruct (String.eqb_spec k drop) as [E' | E']; [ reflexivity | ].
      destruct (String.eqb_spec k' k); congruence.
    + destruct (String.eqb_spec k' k) as [E' | E']; [ | exact IH ].
      destruct (String.eqb_spec k drop); congruence.
Qed.

(** What [_save_model] dumps as metadata: the model without its
    [weights] entry, every other entry as it was, plus the offset
    index under [weight_offsets]; the index has the owners of the
    store, in the store's order, and under each owner its roles. *)
Theorem metadata_document (model : dict value) (metadata : dict value)
        (blob : list Z) :
  build_files model = Ok (metadata, blob) ->
  exists weights total offsets,
    dict_get model "weights" = Some (Weights weights) /\
    store_loop weights ([], 0, []) = Ok (blob, total, offsets) /\
    dict_get metadata "weights" = None /\
    dict_get metadata "weight_offsets" = Some (Offsets offsets) /\
    (forall k, k <> "weights"%string -> k <> "weight_offsets"%string ->
               dict_get metadata k = dict_get model k) /\
    (NoDup (keys weights) ->
     (forall o lw, In (o, lw) weights -> NoDup (keys lw)) ->
     keys offsets = keys weights /\
     forall o lw, In (o, lw) weights ->
                  exists lo, dict_get offsets o = Some lo /\ keys lo = keys lw).
Proof.
  unfold build_files.
  destruct (dict_get model "weights") as [[ | weights | ] | ]; try discriminate.
  cbn [bind].
  destruct (store_loop weights ([], 0, [])) as [[[wd tot] offs] | e] eqn:Es;
    [ cbn [bind] | discriminate ].
  intros [= <- <-]. exists weights, tot, offs.
  split; [ reflexivity | ]. split; [ exact Es | ]. split; [ | split; [ | split ] ].
  - rewrite dict_get_set_other by discriminate. now rewrite dict_get_filter_key.
  - apply dict_get_set_same.
  - intros k Hw Ho. rewrite dict_get_set_other by assumption.
    rewrite dict_get_filter_key. destruct (String.eqb_spec k "weights"); congruence.
  - intros Hnd Hnd'. apply (store_loop_keys weights [] 0 [] wd tot offs Es); assumption.
Qed.

(** A model dict without a [weights] entry is not saved: the function
    returns [False], logs the [KeyError] (or the error of the
    directory) and writes no file. *)
Theorem save_without_weights (self : converter) (model : dict value)
        (output_path : string) (w : world) :
  dict_get model "weights" = None ->
  let w' := fst (_save_model self model output_path w) in
  snd (_save_model self model output_path w) = Ok false /\
  files w' = files w /\
  log w' = log w ++ [if path_denied w (Os.dirname output_path)
                     then OSError else KeyError].
Proof.
  intros Hm. rewrite save_model_cases. unfold build_files. rewrite Hm.
  destruct (path_denied w (Os.dirname output_path)); simpl; auto.
Qed.

End Blob.

Section BlobExamples.
Import IEEE Np PyTorchConverter.

Lemma blob_length_witness :
  exists blob total offsets,
    store_loop example_store ([], 0, []) = Ok (blob, total, offsets) /\
    total = sum_store payload_size example_store /\
    len blob = sum_store header_size example_store +
               sum_store payload_size example_store.
Proof. exact (blob_length example_store all_packable_example_store). Defined.

Lemma metadata_document_witness :
  exists weights total offsets,
    dict_get [("format_version"%string, Json "1.0");
              ("weights"%string, Weights example_store)] "weights"
    = Some (Weights weights) /\
    store_loop weights ([], 0, []) =
    Ok ([2; 0; 0; 0; 0; 0; 128; 63; 0; 0; 0; 0; 4; 0; 0; 0; 255;
         1; 0; 0; 0; 0; 0; 128; 63], total, offsets) /\
    dict_get [("format_version"%string, Json "1.0");
              ("weight_offsets"%string,
               Offsets [("fc"%string, [("weight"%string, 0); ("bias"%string, 17)])])]
             "weights" = None /\
    dict_get [("format_version"%string, Json "1.0");
              ("weight_offsets"%string,
               Offsets [("fc"%string, [("weight"%string, 0); ("bias"%string, 17)])])]
             "weight_offsets" = Some (Offsets offsets) /\
    (forall k, k <> "weights"%string -> k <> "weight_offsets"%string ->
               dict_get [("format_version"%string, Json "1.0");
                         ("weight_offsets"%string,
                          Offsets [("fc"%string,
                                    [("weight"%string, 0); ("bias"%string, 17)])])] k =
               dict_get [("format_version"%string, Json "1.0");
                         ("weights"%string, Weights example_store)] k) /\
    (NoDup (keys weights) ->
     (forall o lw, In (o, lw) weights -> NoDup (keys lw)) ->
     keys offsets = keys weights /\
     forall o lw, In (o, lw) weights ->
                  exists lo, dict_get offsets o = Some lo /\ keys lo = keys lw).
Proof.
  apply (metadata_document
           [("format_version"%string, Json "1.0");
            ("weights"%string, Weights example_store)]).
  vm_compute. reflexivity.
Defined.

Lemma save_without_weights_witness :
  snd (_save_model (mk_converter 4 false None None true false)
                   [("format_version"%string, Json "1.0")] "out.tinyai"
                   (mk_world [] [] [] [])) = Ok false /\
  files (fst (_save_model (mk_converter 4 false None None true false)
                          [("format_version"%string, Json "1.0")] "out.tinyai"
                          (mk_world [] [] [] []))) = [] /\
  log (fst (_save_model (mk_converter 4 false None None true false)
                        [("format_version"%string, Json "1.0")] "out.tinyai"
                        (mk_world [] [] [] []))) = [] ++ [KeyError].
Proof.
  exact (save_without_weights (mk_converter 4 false None None true false)
           [("format_version"%string, Json "1.0")] "out.tinyai"
           (mk_world [] [] [] []) eq_refl).
Defined.

End BlobExamples.
